(** * netthread: a reverse-DNS lookup raced against a millisecond timer

    Shallow embedding of [netthread.cpp].  The program starts a timer
    thread ([timer]) and a lookup thread ([getfqdn]) that share a
    [HostInfo] object, waits for the timer, cancels the lookup thread,
    joins it and prints the name it settled on.

    The operating system and the C/C++ libraries are an explicit
    environment ([OS]): every call the source makes to them
    ([gethostname], [getifaddrs], [getnameinfo], the [pthread_*] calls)
    reads its result from that record; [nanosleep] takes the signals that
    interrupt it as an argument.  The lookup thread logs the calls it
    makes, in program order, so that a cancelled thread is a prefix of its
    log. *)

From Stdlib Require Import ZArith List String Ascii Bool Lia.
Import ListNotations.

Open Scope string_scope.
Open Scope list_scope.
Open Scope Z_scope.

(** ** std::string *)

Module StdString.

(** [s] begins with [pat]: the character-wise comparison [find] performs
    at one position. *)
Fixpoint starts_with (pat s : string) : bool :=
  match pat, s with
  | EmptyString, _ => true
  | String _ _, EmptyString => false
  | String a pat', String b s' => Ascii.eqb a b && starts_with pat' s'
  end.

(** [std::string::find(str)] searching from position [pos] of the
    receiver whose remaining characters are [s]: the lowest position at
    which [pat] occurs, [None] standing for [std::string::npos]. *)
Fixpoint find_from (pos : nat) (s pat : string) : option nat :=
  if starts_with pat s then Some pos
  else match s with
       | EmptyString => None
       | String _ s' => find_from (S pos) s' pat
       end.

Definition find (s pat : string) : option nat := find_from 0 s pat.

Definition size (s : string) : nat := String.length s.

(** [b] occurs in [c] as a contiguous run of characters. *)
Definition is_substring (b c : string) : Prop :=
  exists pre post, c = (pre ++ b ++ post)%string.

End StdString.

Import StdString.

(** ** The acceptance test of [getfqdn] (line 165)

    [(candidate.find(base)!=std::string::npos) && baseSize<candidate.size()] *)
Definition accepts (base candidate : string) : bool :=
  match find candidate base with
  | Some _ => (size base <? size candidate)%nat
  | None => false
  end.


(** ** System interface

    Constants of the system headers (Linux values) and the results of the
    system calls the program makes. *)

Module Sys.

Definition AF_INET : Z := 2.
Definition AF_INET6 : Z := 10.
Definition NI_NAMEREQD : Z := 8.
Definition sizeof_sockaddr_in : Z := 16.
Definition sizeof_sockaddr_in6 : Z := 28.
Definition ESRCH : Z := 3.
Definition EINTR : Z := 4.
Definition EINVAL : Z := 22.

Record timespec := { tv_sec : Z; tv_nsec : Z }.

Record sockaddr := { sa_family : Z; sa_data : list Z }.

(** One node of the list [getifaddrs] returns; [ifa_addr] may be NULL. *)
Record ifaddrs := { ifa_name : string; ifa_addr : option sockaddr }.

(** The start routines handed to [pthread_create], with their argument. *)
Inductive routine :=
| timer_routine (msec : Z)
| getfqdn_routine.

(** What the operating system answers to each call of the program.
    [os_rdns_steps] is the scheduling of the lookup thread
    against the [pthread_cancel] of [main]: [None] when the thread returns
    by itself, [Some k] when the cancellation is acted upon after the
    thread has made [k] of its calls. *)
Record OS := {
  os_gethostname : Z * string;
  os_getifaddrs : Z * list ifaddrs;
  os_getnameinfo : option sockaddr -> Z -> Z -> Z * string;
  os_pthread_create : routine -> Z * Z;
  os_pthread_join : Z -> Z;
  os_pthread_cancel : Z -> Z;
  os_rdns_steps : option nat
}.

End Sys.

Import Sys.

(** C's [if (ierr)]. *)
Definition nonzero (z : Z) : bool := negb (z =? 0).

(** Conversion to [int] (32 bits, two's complement). *)
Definition to_int (z : Z) : Z := (z + 2 ^ 31) mod 2 ^ 32 - 2 ^ 31.

(** ** [atoi] of the C library: leading white space, an optional sign,
    then decimal digits up to the first other character.  As in glibc it
    is [strtol] converted to [int]: a value outside the range of [long]
    is first replaced by [LONG_MAX] or [LONG_MIN]. *)

Definition isspace (c : ascii) : bool :=
  let n := Z.of_nat (nat_of_ascii c) in
  (n =? 32) || ((9 <=? n) && (n <=? 13)).

Definition digit_of (c : ascii) : option Z :=
  let n := Z.of_nat (nat_of_ascii c) in
  if (48 <=? n) && (n <=? 57) then Some (n - 48) else None.

Fixpoint skip_space (s : string) : string :=
  match s with
  | String c s' => if isspace c then skip_space s' else s
  | EmptyString => s
  end.

Fixpoint digits (acc : Z) (s : string) : Z :=
  match s with
  | String c s' =>
      match digit_of c with
      | Some d => digits (10 * acc + d) s'
      | None => acc
      end
  | EmptyString => acc
  end.

(** The saturation of [strtol] to the range of [long] (64 bits). *)
Definition to_long_saturated (z : Z) : Z :=
  Z.max (-9223372036854775808) (Z.min z 9223372036854775807).

Definition strtol (s : string) : Z :=
  match skip_space s with
  | String "-" s' => to_long_saturated (- digits 0 s')
  | String "+" s' => to_long_saturated (digits 0 s')
  | s' => to_long_saturated (digits 0 s')
  end.

Definition atoi (s : string) : Z := to_int (strtol s).

(** ** The timer thread (lines 23-31) *)

Definition timespec_valid (t : timespec) : bool :=
  (0 <=? tv_sec t) && (0 <=? tv_nsec t) && (tv_nsec t <=? 999999999).

Definition ns_of (t : timespec) : Z := tv_sec t * 1000000000 + tv_nsec t.

Definition timespec_of_ns (n : Z) : timespec :=
  {| tv_sec := n / 1000000000; tv_nsec := n mod 1000000000 |}.

(** Result of one [nanosleep(req, rem)]: the return value, [errno], the
    contents of [rem] afterwards and the time the caller stayed blocked. *)
Record slept := { ret : Z; errno : Z; rem_out : timespec; blocked : Z }.

(** [nanosleep]: a request whose nanosecond field is outside
    [0, 999999999] or whose second field is negative fails with [EINVAL]
    at once; a signal handled after [s] nanoseconds, before the request
    has elapsed, makes it fail with [EINTR] and store the remaining time;
    otherwise it returns 0 after the requested time. *)
Definition nanosleep (req : timespec) (signal : option Z) : slept :=
  if timespec_valid req then
    match signal with
    | Some s =>
        if (0 <=? s) && (s <? ns_of req) then
          {| ret := -1; errno := EINTR;
             rem_out := timespec_of_ns (ns_of req - s); blocked := s |}
        else {| ret := 0; errno := 0; rem_out := req; blocked := ns_of req |}
    | None => {| ret := 0; errno := 0; rem_out := req; blocked := ns_of req |}
    end
  else {| ret := -1; errno := EINVAL; rem_out := req; blocked := 0 |}.

(** [while ((nanosleep(&rem, &rem)==-1) && (errno==EINTR)) {}], returning
    the total time spent blocked. *)
Fixpoint timer_loop (rem : timespec) (signals : list Z) (elapsed : Z) : Z :=
  let r := nanosleep rem (hd_error signals) in
  if (ret r =? -1) && (errno r =? EINTR) then
    match signals with
    | _ :: later => timer_loop (rem_out r) later (elapsed + blocked r)
    | [] => elapsed + blocked r
    end
  else elapsed + blocked r.

(** The request built from the [int] the argument points to:
    [tv_sec] is 0 and [tv_nsec] is the [int] product of 1000000 and that
    value (lines 27-28). *)
Definition timer_request (msec : Z) : timespec :=
  {| tv_sec := 0; tv_nsec := to_int (1000000 * msec) |}.

(** [timer]: nanoseconds the thread stays blocked before it returns. *)
Definition timer (msec : Z) (signals : list Z) : Z :=
  timer_loop (timer_request msec) signals 0.

(** ** [HostInfo] (lines 38-105) *)

Record HostInfo := {
  Hostname : string;
  Fqdn : string;
  Error : Z;
  TimerTid : Z
}.

(** The constructor: [Error] is -1 when [gethostname] fails; both names
    are set from the same buffer. *)
Definition HostInfo_new (os : OS) : HostInfo :=
  let '(ierr, base) := os_gethostname os in
  {| Hostname := base;
     Fqdn := base;
     Error := if nonzero ierr then -1 else 0;
     TimerTid := 0 |}.

Definition SetTimerThreadId (this : HostInfo) (tid : Z) : HostInfo :=
  {| Hostname := Hostname this; Fqdn := Fqdn this;
     Error := Error this; TimerTid := tid |}.

Definition GetHostname (this : HostInfo) : string := Hostname this.

Definition GetError (this : HostInfo) : Z := Error this.

Definition SetError (this : HostInfo) (err : Z) : HostInfo :=
  {| Hostname := Hostname this; Fqdn := Fqdn this;
     Error := err; TimerTid := TimerTid this |}.

Definition GetFqdn (this : HostInfo) : string :=
  if nonzero (Error this) then Hostname this else Fqdn this.

(** The calls a run of [getfqdn] makes, in program order.  [SetFqdn] is
    logged as the write [SetFqdnCall] followed by the [pthread_cancel] of
    the timer thread it performs. *)
Inductive call :=
| Getifaddrs (ierr : Z)
| Getnameinfo (sa : option sockaddr) (addrlen : Z) (ierr : Z) (host : string)
| SetErrorCall (err : Z)
| FindCall (candidate base : string)
| SetFqdnCall (fqdn : string)
| PthreadCancelCall (tid : Z)
| Freeifaddrs.

(** The writes of [SetFqdn] to the object. *)
Definition SetFqdn_fields (this : HostInfo) (fqdn : string) : HostInfo :=
  {| Hostname := Hostname this; Fqdn := fqdn;
     Error := 0; TimerTid := TimerTid this |}.

Definition SetFqdn (this : HostInfo) (fqdn : string) : HostInfo * list call :=
  (SetFqdn_fields this fqdn,
   [SetFqdnCall fqdn; PthreadCancelCall (TimerTid this)]).

(** Prefix the log of a computation with the calls made before it. *)
Definition emit (l : list call) (r : HostInfo * list call) : HostInfo * list call :=
  (fst r, l ++ snd r).

(** ** The lookup thread (lines 108-175) *)

Definition family (ifa : ifaddrs) : Z :=
  match ifa_addr ifa with
  | Some sa => sa_family sa
  | None => -1
  end.

Definition is_inet (ifa : ifaddrs) : bool :=
  (family ifa =? AF_INET) || (family ifa =? AF_INET6).

Definition addrlen_of (ifa : ifaddrs) : Z :=
  if family ifa =? AF_INET then sizeof_sockaddr_in else sizeof_sockaddr_in6.

(** The [for] loop over the interface list. *)
Fixpoint scan (os : OS) (base : string) (ifa : list ifaddrs) (info : HostInfo)
  : HostInfo * list call :=
  match ifa with
  | [] => (info, [])
  | a :: ifa_next =>
      if is_inet a then
        let addrlen := addrlen_of a in
        let '(ierr, host) := os_getnameinfo os (ifa_addr a) addrlen NI_NAMEREQD in
        if nonzero ierr then
          emit [Getnameinfo (ifa_addr a) addrlen ierr host; SetErrorCall (-3)]
               (scan os base ifa_next (SetError info (-3)))
        else
          let candidate := host in
          if accepts base candidate then
            emit [Getnameinfo (ifa_addr a) addrlen ierr host;
                  FindCall candidate base]
                 (SetFqdn info candidate)
          else
            emit [Getnameinfo (ifa_addr a) addrlen ierr host;
                  FindCall candidate base]
                 (scan os base ifa_next info)
      else scan os base ifa_next info
  end.

Definition getfqdn (os : OS) (info : HostInfo) : HostInfo * list call :=
  let base := GetHostname info in
  let '(ierr, ifas) := os_getifaddrs os in
  if nonzero ierr then
    (SetError info (-2), [Getifaddrs ierr; SetErrorCall (-2)])
  else
    let r := scan os base ifas info in
    (fst r, Getifaddrs ierr :: snd r ++ [Freeifaddrs]).

(** ** The shared object as seen from outside the thread *)

(** Effect of one logged call on the [HostInfo] the thread points to. *)
Definition apply_call (info : HostInfo) (c : call) : HostInfo :=
  match c with
  | SetErrorCall err => SetError info err
  | SetFqdnCall fqdn => SetFqdn_fields info fqdn
  | _ => info
  end.

Definition replay (info : HostInfo) (log : list call) : HostInfo :=
  fold_left apply_call log info.

(** The calls a thread has made when it is retired: all of them when it
    returned, the first [k] when it was cancelled after [k] calls. *)
Definition executed (steps : option nat) (log : list call) : list call :=
  match steps with
  | None => log
  | Some k => firstn k log
  end.

(** ** [main] (lines 178-250) *)

Inductive main_call :=
| Cerr (line : string)
| PthreadCreate (start : routine) (ierr : Z)
| PthreadJoin (tid : Z) (ierr : Z)
| PthreadCancel (tid : Z) (ierr : Z).

(** The lines printed at the end, from [rdnsSuccess] and the object. *)
Definition report (rdnsSuccess : bool) (info : HostInfo) : list main_call :=
  (if rdnsSuccess then
     if nonzero (GetError info) then
       [Cerr "failed to find a match falling back to gethostname"]
     else []
   else [Cerr "rdns took too long, falling back to gethostname"])
  ++ [Cerr ("fqdn=" ++ GetFqdn info)].

(** The object the lookup thread leaves behind once it is joined. *)
Definition info_after_rdns (os : OS) (info : HostInfo) : HostInfo :=
  replay info (executed (os_rdns_steps os) (snd (getfqdn os info))).

Definition main (os : OS) (argv : list string) : Z * list main_call :=
  let argc := Z.of_nat (List.length argv) in
  if negb (argc =? 2) then
    (-1, [Cerr "error: a.out [timeout msec]"])
  else
    let timeout := atoi (nth 1 argv "") in
    let '(ierr1, timerTid) := os_pthread_create os (timer_routine timeout) in
    let log1 := [PthreadCreate (timer_routine timeout) ierr1] in
    if nonzero ierr1 then
      (-2, log1 ++ [Cerr "error creating timer thread"])
    else
      let info := SetTimerThreadId (HostInfo_new os) timerTid in
      let '(ierr2, rDnsTid) := os_pthread_create os getfqdn_routine in
      let log2 := log1 ++ [PthreadCreate getfqdn_routine ierr2] in
      if nonzero ierr2 then
        (-1, log2 ++ [Cerr "error creating rdns thread"])
      else
        let ierr3 := os_pthread_join os timerTid in
        let log3 := log2 ++ [PthreadJoin timerTid ierr3] in
        if nonzero ierr3 then
          (-3, log3 ++ [Cerr "error waiting for timer"])
        else
          let ierr4 := os_pthread_cancel os rDnsTid in
          let rdnsSuccess := ierr4 =? ESRCH in
          let ierr5 := os_pthread_join os rDnsTid in
          let log5 := log3 ++ [PthreadCancel rDnsTid ierr4;
                               PthreadJoin rDnsTid ierr5] in
          if nonzero ierr5 then
            (-5, log5 ++ [Cerr "error waiting for rdns thread"])
          else
            (0, log5 ++ report rdnsSuccess (info_after_rdns os info)).

(** ** Vocabulary of the statements *)

(** The reverse lookup [scan] makes for one list node. *)
Definition lookup (os : OS) (a : ifaddrs) : Z * string :=
  os_getnameinfo os (ifa_addr a) (addrlen_of a) NI_NAMEREQD.

(** The name a node contributes: it is an IPv4 or IPv6 address, its
    lookup succeeds and the name passes the acceptance test. *)
Definition candidate_of (os : OS) (base : string) (a : ifaddrs) : option string :=
  if is_inet a then
    if nonzero (fst (lookup os a)) then None
    else if accepts base (snd (lookup os a)) then Some (snd (lookup os a))
         else None
  else None.

(** The nodes in enumeration order up to and including the first one that
    contributes a name. *)
Fixpoint upto_first_accepted (os : OS) (base : string) (ifa : list ifaddrs)
  : list ifaddrs :=
  match ifa with
  | [] => []
  | a :: ifa_next =>
      match candidate_of os base a with
      | Some _ => [a]
      | None => a :: upto_first_accepted os base ifa_next
      end
  end.

(** The log of a lookup that failed on node [a]. *)
Definition failed_lookup (os : OS) (a : ifaddrs) : list call :=
  [Getnameinfo (ifa_addr a) (addrlen_of a) (fst (lookup os a)) (snd (lookup os a));
   SetErrorCall (-3)].

Definition lookups (log : list call) : list (option sockaddr) :=
  flat_map (fun c => match c with
                     | Getnameinfo sa _ _ _ => [sa]
                     | _ => []
                     end) log.

Definition names_obtained (log : list call) : list string :=
  flat_map (fun c => match c with
                     | Getnameinfo _ _ ierr host =>
                         if nonzero ierr then [] else [host]
                     | _ => []
                     end) log.

Definition names_tested (log : list call) : list string :=
  flat_map (fun c => match c with
                     | FindCall candidate _ => [candidate]
                     | _ => []
                     end) log.

Definition is_fqdn_write (c : call) : bool :=
  match c with
  | SetFqdnCall _ => true
  | _ => false
  end.

Definition fqdn_writes (log : list call) : nat :=
  List.length (filter is_fqdn_write log).

(** Whether the list obtained from [getifaddrs] is still allocated after
    the calls of [log]. *)
Definition ifaddrs_held (log : list call) : bool :=
  fold_left (fun held c => match c with
                           | Getifaddrs ierr => negb (nonzero ierr)
                           | Freeifaddrs => false
                           | _ => held
                           end) log false.

(** The invariant of the record: the qualified name is the host name, or
    contains it and is strictly longer. *)
Definition fqdn_invariant (info : HostInfo) : Prop :=
  Fqdn info = Hostname info \/
  (is_substring (Hostname info) (Fqdn info) /\
   (String.length (Hostname info) < String.length (Fqdn info))%nat).

(** A write of the qualified name that the acceptance test allows. *)
Definition write_accepted (base : string) (c : call) : Prop :=
  match c with
  | SetFqdnCall fqdn => accepts base fqdn = true
  | _ => True
  end.

(** The thread identifiers [main] obtains and the outcome of its four
    thread calls. *)
Definition timerTid (os : OS) (argv : list string) : Z :=
  snd (os_pthread_create os (timer_routine (atoi (nth 1 argv "")))).

Definition rDnsTid (os : OS) : Z := snd (os_pthread_create os getfqdn_routine).

Definition timer_created (os : OS) (argv : list string) : Prop :=
  fst (os_pthread_create os (timer_routine (atoi (nth 1 argv "")))) = 0.

Definition rdns_created (os : OS) : Prop :=
  fst (os_pthread_create os getfqdn_routine) = 0.

Definition timer_joined (os : OS) (argv : list string) : Prop :=
  os_pthread_join os (timerTid os argv) = 0.

Definition rdns_joined (os : OS) : Prop :=
  os_pthread_join os (rDnsTid os) = 0.

(** The thread calls of a run of [main] that goes through all of them. *)
Definition thread_calls (os : OS) (argv : list string) : list main_call :=
  [PthreadCreate (timer_routine (atoi (nth 1 argv "")))
     (fst (os_pthread_create os (timer_routine (atoi (nth 1 argv "")))));
   PthreadCreate getfqdn_routine (fst (os_pthread_create os getfqdn_routine));
   PthreadJoin (timerTid os argv) (os_pthread_join os (timerTid os argv));
   PthreadCancel (rDnsTid os) (os_pthread_cancel os (rDnsTid os));
   PthreadJoin (rDnsTid os) (os_pthread_join os (rDnsTid os))].

(** The record [main] hands to the lookup thread. *)
Definition main_info (os : OS) (argv : list string) : HostInfo :=
  SetTimerThreadId (HostInfo_new os) (timerTid os argv).

(** [main] got as far as printing the result line. *)
Definition reports (log : list main_call) (value : string) : Prop :=
  last log (Cerr "") = Cerr ("fqdn=" ++ value).

Definition is_thread_create (c : main_call) : bool :=
  match c with
  | PthreadCreate _ _ => true
  | _ => false
  end.

(** A timeout argument as the specification wants it: a non-empty run of
    decimal digits. *)
Fixpoint all_digits (s : string) : bool :=
  match s with
  | EmptyString => true
  | String c s' =>
      match digit_of c with
      | Some _ => all_digits s'
      | None => false
      end
  end.

Definition spec_timeout_valid (argv : list string) : bool :=
  (List.length argv =? 2)%nat &&
  negb (String.eqb (nth 1 argv "") "") && all_digits (nth 1 argv "").

(** ** Sample environments *)

Definition addr4 (d : list Z) : ifaddrs :=
  {| ifa_name := "eth0"; ifa_addr := Some {| sa_family := AF_INET; sa_data := d |} |}.

Definition loopback : ifaddrs := addr4 [127; 0; 0; 1].
Definition eth0 : ifaddrs := addr4 [10; 0; 0; 7].
Definition eth1 : ifaddrs := addr4 [192; 168; 1; 7].

(** A cluster node [node01]: the loopback address has no PTR record, the
    two others resolve to qualified names.  All thread calls succeed and
    the lookup thread is found finished ([ESRCH]). *)
Definition os_node01 : OS :=
  {| os_gethostname := (0, "node01");
     os_getifaddrs := (0, [loopback; eth0; eth1]);
     os_getnameinfo := fun sa _ _ =>
       match sa with
       | Some {| sa_data := [10; 0; 0; 7] |} => (0, "node01.cluster.example.com")
       | Some {| sa_data := [192; 168; 1; 7] |} => (0, "node01.lan.example.com")
       | _ => (-2, "")
       end;
     os_pthread_create := fun r =>
       match r with
       | timer_routine _ => (0, 101)
       | getfqdn_routine => (0, 102)
       end;
     os_pthread_join := fun _ => 0;
     os_pthread_cancel := fun _ => ESRCH;
     os_rdns_steps := None |}.

(** The same node when the timer ends while the lookup thread is inside
    its first [getnameinfo]: [pthread_cancel] finds the thread running
    and the cancellation is acted upon in that call. *)
Definition os_slow_dns : OS :=
  {| os_gethostname := os_gethostname os_node01;
     os_getifaddrs := os_getifaddrs os_node01;
     os_getnameinfo := os_getnameinfo os_node01;
     os_pthread_create := os_pthread_create os_node01;
     os_pthread_join := os_pthread_join os_node01;
     os_pthread_cancel := fun _ => 0;
     os_rdns_steps := Some 1%nat |}.

(** A host on which [getifaddrs] fails. *)
Definition os_no_ifaddrs : OS :=
  {| os_gethostname := os_gethostname os_node01;
     os_getifaddrs := (-1, []);
     os_getnameinfo := os_getnameinfo os_node01;
     os_pthread_create := os_pthread_create os_node01;
     os_pthread_join := os_pthread_join os_node01;
     os_pthread_cancel := os_pthread_cancel os_node01;
     os_rdns_steps := None |}.


(** ** Vocabulary of the further properties *)

(** The first name the enumeration contributes, in enumeration order. *)
Fixpoint first_candidate (os : OS) (base : string) (ifa : list ifaddrs)
  : option string :=
  match ifa with
  | [] => None
  | a :: ifa_next =>
      match candidate_of os base a with
      | Some c => Some c
      | None => first_candidate os base ifa_next
      end
  end.

(** Some IPv4 or IPv6 node of the list has a failing reverse lookup. *)
Definition any_lookup_failed (os : OS) (ifa : list ifaddrs) : bool :=
  existsb (fun a => is_inet a && nonzero (fst (lookup os a))) ifa.

(** The record a run of the lookup thread that returns is expected to
    leave, read off the answers of the system: the enumeration error, else
    the first contributed name, else the lookup error if a lookup failed,
    else the record untouched. *)
Definition resolution (os : OS) (info : HostInfo) : HostInfo :=
  if nonzero (fst (os_getifaddrs os)) then SetError info (-2)
  else
    match first_candidate os (Hostname info) (snd (os_getifaddrs os)) with
    | Some c => SetFqdn_fields info c
    | None =>
        if any_lookup_failed os (snd (os_getifaddrs os))
        then SetError info (-3) else info
    end.

(** The thread identifiers the log passes to [pthread_cancel]. *)
Definition cancels (log : list call) : list Z :=
  flat_map (fun c => match c with
                     | PthreadCancelCall tid => [tid]
                     | _ => []
                     end) log.

Definition is_free (c : call) : bool :=
  match c with
  | Freeifaddrs => true
  | _ => false
  end.

(** Number of [freeifaddrs] calls of a log. *)
Definition frees (log : list call) : nat := List.length (filter is_free log).

(** A [getnameinfo] call on a non-null IPv4 or IPv6 address with the
    length of its address structure. *)
Definition lookup_wellformed (c : call) : Prop :=
  match c with
  | Getnameinfo sa addrlen _ _ =>
      exists s, sa = Some s /\
        ((sa_family s = AF_INET /\ addrlen = sizeof_sockaddr_in) \/
         (sa_family s = AF_INET6 /\ addrlen = sizeof_sockaddr_in6))
  | _ => True
  end.

(** A call that leaves the record as it is. *)
Definition is_record_write (c : call) : bool :=
  match c with
  | SetErrorCall _ | SetFqdnCall _ => true
  | _ => false
  end.

(** A call that obtains or releases the interface list. *)
Definition touches_ifaddrs (c : call) : bool :=
  match c with
  | Getifaddrs _ | Freeifaddrs => true
  | _ => false
  end.


(** The diagnostic of a thread that finished without a name. *)
Definition no_match_line : main_call :=
  Cerr "failed to find a match falling back to gethostname".

(** The diagnostic of a thread that was still running. *)
Definition too_long_line : main_call :=
  Cerr "rdns took too long, falling back to gethostname".

(** A node whose lookup succeeds with a name that does not contain the
    host name, on an otherwise healthy host. *)
Definition os_foreign_name : OS :=
  {| os_gethostname := (0, "node01");
     os_getifaddrs := (0, [eth0]);
     os_getnameinfo := fun _ _ _ => (0, "gateway.example.com");
     os_pthread_create := os_pthread_create os_node01;
     os_pthread_join := fun _ => 0;
     os_pthread_cancel := fun _ => ESRCH;
     os_rdns_steps := None |}.

(** The node when the lookup thread has written the name and cancelled
    the timer but has not returned yet when [main] wakes up:
    [pthread_cancel] finds it running, and the thread, past its last
    lookup, returns by itself. *)
Definition os_late_cancel : OS :=
  {| os_gethostname := os_gethostname os_node01;
     os_getifaddrs := os_getifaddrs os_node01;
     os_getnameinfo := os_getnameinfo os_node01;
     os_pthread_create := os_pthread_create os_node01;
     os_pthread_join := os_pthread_join os_node01;
     os_pthread_cancel := fun _ => 0;
     os_rdns_steps := None |}.

(** ** The end of the process *)

(** How the process ends: [main] returns a value, or the C++ runtime
    calls [std::terminate] and the process is aborted ([SIGABRT]). *)
Inductive ending :=
| Returned (code : Z)
| Terminated.

(** The cancellation [main] requests at line 219 is acted upon while the
    lookup thread is inside [getifaddrs], its first call.  Cancellation
    unwinds the stack of the thread; [getifaddrs] is declared in
    [ifaddrs.h] as a function that does not throw, so an unwinding that
    starts inside it ends in [std::terminate]. *)
Definition unwinds_getifaddrs (os : OS) : bool :=
  (os_pthread_cancel os (rDnsTid os) =? 0) &&
  match os_rdns_steps os with
  | Some O => true
  | _ => false
  end.

Definition is_thread_cancel (c : main_call) : bool :=
  match c with
  | PthreadCancel _ _ => true
  | _ => false
  end.

(** The run of the program as a process: the run of [main], cut after
    its [pthread_cancel] when the cancellation aborts the process. *)
Definition process (os : OS) (argv : list string) : ending * list main_call :=
  if existsb is_thread_cancel (snd (main os argv)) && unwinds_getifaddrs os
  then (Terminated, firstn 4 (thread_calls os argv))
  else (Returned (fst (main os argv)), snd (main os argv)).

(** The node when the timer ends at once and [main] cancels the lookup
    thread while it is still inside [getifaddrs]. *)
Definition os_cancel_in_getifaddrs : OS :=
  {| os_gethostname := os_gethostname os_node01;
     os_getifaddrs := os_getifaddrs os_node01;
     os_getnameinfo := os_getnameinfo os_node01;
     os_pthread_create := os_pthread_create os_node01;
     os_pthread_join := os_pthread_join os_node01;
     os_pthread_cancel := fun _ => 0;
     os_rdns_steps := Some 0%nat |}.



(** ** Lemmas on [std::string] *)

Lemma string_length_app (s t : string) :
  String.length (s ++ t) = (String.length s + String.length t)%nat.
Proof.
  induction s as [|a s IH]; simpl; [reflexivity | now rewrite IH].
Qed.

Lemma starts_with_spec (pat s : string) :
  starts_with pat s = true <-> exists post, s = (pat ++ post)%string.
Proof.
  revert s; induction pat as [|a pat IH]; intros s; simpl.
  - split; [intros _; now exists s | reflexivity].
  - destruct s as [|b s].
    + split; [discriminate | intros [post H]; discriminate].
    + rewrite andb_true_iff, Ascii.eqb_eq, IH. split.
      * intros [-> [post ->]]. now exists post.
      * intros [post H]. injection H as -> ->. split; [reflexivity | now exists post].
Qed.

Lemma find_from_some (pos : nat) (s pat : string) (p : nat) :
  find_from pos s pat = Some p -> is_substring pat s.
Proof.
  revert pos; induction s as [|a s IH]; intros pos; simpl.
  - destruct (starts_with pat "") eqn:E; [|discriminate].
    intros _. apply starts_with_spec in E as [post ->]. now exists "", post.
  - destruct (starts_with pat (String a s)) eqn:E.
    + intros _. apply starts_with_spec in E as [post ->]. now exists "", post.
    + intros H. apply IH in H as (pre & post & ->).
      now exists (String a pre), post.
Qed.

Lemma find_from_none (pos : nat) (s pat : string) :
  find_from pos s pat = None -> ~ is_substring pat s.
Proof.
  revert pos; induction s as [|a s IH]; intros pos; simpl.
  - destruct (starts_with pat "") eqn:E; [discriminate|].
    intros _ (pre & post & H).
    destruct pre; [|discriminate]. simpl in H.
    assert (starts_with pat "" = true) by (apply starts_with_spec; now exists post).
    congruence.
  - destruct (starts_with pat (String a s)) eqn:E; [discriminate|].
    intros H (pre & post & Hc).
    destruct pre as [|b pre]; simpl in Hc.
    + assert (starts_with pat (String a s) = true)
        by (apply starts_with_spec; now exists post).
      congruence.
    + injection Hc as _ ->. apply IH in H. apply H. now exists pre, post.
Qed.

Lemma find_found_iff (s pat : string) :
  (exists p, find s pat = Some p) <-> is_substring pat s.
Proof.
  unfold find. split.
  - intros [p H]. eapply find_from_some; eassumption.
  - intros H. destruct (find_from 0 s pat) as [p|] eqn:E.
    + now exists p.
    + now apply find_from_none in E.
Qed.

Lemma accepts_true_iff (b c : string) :
  accepts b c = true <->
  is_substring b c /\ (String.length b < String.length c)%nat.
Proof.
  unfold accepts, size. rewrite <- find_found_iff.
  destruct (find c b) as [p|].
  - rewrite Nat.ltb_lt. split; [intros H; split; [now exists p | exact H] | tauto].
  - split; [discriminate | intros [[p H] _]; discriminate].
Qed.

(** An accepted candidate qualifies the base name: it adds characters
    before it or after it. *)
Lemma accepted_has_qualification (b c : string) :
  accepts b c = true ->
  exists pre post, c = (pre ++ b ++ post)%string /\ (pre <> "" \/ post <> "").
Proof.
  intros H. apply accepts_true_iff in H as [(pre & post & ->) Hlen].
  exists pre, post. split; [reflexivity|].
  rewrite !string_length_app in Hlen.
  destruct pre; [|left; discriminate].
  destruct post; [simpl in Hlen; lia | right; discriminate].
Qed.

(** C1. For every base hostname [b] and candidate [c] the acceptance test
    of the resolver accepts [c] exactly when [b] occurs in [c] as a
    substring and [c] is strictly longer than [b]; a candidate equal to
    [b] is rejected, and so is every candidate that is not longer than
    [b]. *)
Theorem accepts_iff_substring_and_longer (b c : string) :
  (accepts b c = true <->
   is_substring b c /\ (String.length b < String.length c)%nat) /\
  accepts b b = false /\
  ((String.length c <= String.length b)%nat -> accepts b c = false).
Proof.
  pose proof accepts_true_iff as Hiff.
  split; [apply Hiff | split].
  - destruct (accepts b b) eqn:E; [|reflexivity].
    apply Hiff in E as [_ E]. lia.
  - intros Hle. destruct (accepts b c) eqn:E; [|reflexivity].
    apply Hiff in E as [_ E]. lia.
Qed.

Lemma accepts_iff_substring_and_longer_witness :
  accepts "node01" "node01.cluster.example.com" = true /\
  accepts "node01" "node01" = false /\
  accepts "node01" "node" = false.
Proof.
  destruct (accepts_iff_substring_and_longer "node01" "node") as (_ & H2 & H3).
  split; [reflexivity | split; [exact H2 | apply H3; simpl; lia]].
Defined.

(** ** The log of the lookup thread *)

Lemma nonzero_false (z : Z) : nonzero z = false <-> z = 0.
Proof. unfold nonzero. rewrite negb_false_iff. apply Z.eqb_eq. Qed.

Lemma nonzero_true (z : Z) : nonzero z = true <-> z <> 0.
Proof. unfold nonzero. rewrite negb_true_iff. apply Z.eqb_neq. Qed.

Lemma emit_emit (l1 l2 : list call) (r : HostInfo * list call) :
  emit l1 (emit l2 r) = emit (l1 ++ l2) r.
Proof. unfold emit; simpl. now rewrite app_assoc. Qed.

Lemma emit_nil (r : HostInfo * list call) : emit [] r = r.
Proof. now destruct r. Qed.

Lemma replay_app (info : HostInfo) (l1 l2 : list call) :
  replay info (l1 ++ l2) = replay (replay info l1) l2.
Proof. apply fold_left_app. Qed.

Section Scan.

Variable os : OS.
Variable base : string.

(** One iteration of the loop, by the case the node falls in. *)
Lemma scan_skip (a : ifaddrs) (next : list ifaddrs) (info : HostInfo) :
  is_inet a = false ->
  scan os base (a :: next) info = scan os base next info.
Proof. intros H. simpl. now rewrite H. Qed.

Lemma scan_failed (a : ifaddrs) (next : list ifaddrs) (info : HostInfo) :
  is_inet a = true -> nonzero (fst (lookup os a)) = true ->
  scan os base (a :: next) info =
  emit (failed_lookup os a) (scan os base next (SetError info (-3))).
Proof.
  intros Hi Hf. unfold failed_lookup, lookup in *. simpl. rewrite Hi.
  destruct (os_getnameinfo os (ifa_addr a) (addrlen_of a) NI_NAMEREQD) as [ierr host].
  simpl in *. now rewrite Hf.
Qed.

Lemma scan_rejected (a : ifaddrs) (next : list ifaddrs) (info : HostInfo) :
  is_inet a = true -> nonzero (fst (lookup os a)) = false ->
  accepts base (snd (lookup os a)) = false ->
  scan os base (a :: next) info =
  emit [Getnameinfo (ifa_addr a) (addrlen_of a) (fst (lookup os a)) (snd (lookup os a));
        FindCall (snd (lookup os a)) base]
       (scan os base next info).
Proof.
  intros Hi Hf Ha. unfold lookup in *. simpl. rewrite Hi.
  destruct (os_getnameinfo os (ifa_addr a) (addrlen_of a) NI_NAMEREQD) as [ierr host].
  simpl in *. now rewrite Hf, Ha.
Qed.

Lemma scan_accepted (a : ifaddrs) (next : list ifaddrs) (info : HostInfo) (c : string) :
  candidate_of os base a = Some c ->
  scan os base (a :: next) info =
  emit [Getnameinfo (ifa_addr a) (addrlen_of a) 0 c; FindCall c base]
       (SetFqdn info c).
Proof.
  unfold candidate_of, lookup. simpl.
  destruct (is_inet a); [|discriminate].
  destruct (os_getnameinfo os (ifa_addr a) (addrlen_of a) NI_NAMEREQD) as [ierr host].
  simpl. destruct (nonzero ierr) eqn:Hf; [discriminate|].
  destruct (accepts base host); [|discriminate].
  intros [= ->]. apply nonzero_false in Hf. now subst.
Qed.

(** The four cases are exhaustive. *)
Lemma scan_cases (a : ifaddrs) :
  is_inet a = false \/
  (is_inet a = true /\ nonzero (fst (lookup os a)) = true) \/
  (is_inet a = true /\ nonzero (fst (lookup os a)) = false /\
   accepts base (snd (lookup os a)) = false) \/
  (exists c, candidate_of os base a = Some c).
Proof.
  unfold candidate_of.
  destruct (is_inet a); [|now left].
  destruct (nonzero (fst (lookup os a))); [right; left; now split|].
  destruct (accepts base (snd (lookup os a))) eqn:E.
  - right; right; right. eexists; reflexivity.
  - right; right; left. now repeat split.
Qed.

Lemma candidate_none_cases (a : ifaddrs) :
  candidate_of os base a = None ->
  is_inet a = false \/
  (is_inet a = true /\ nonzero (fst (lookup os a)) = true) \/
  (is_inet a = true /\ nonzero (fst (lookup os a)) = false /\
   accepts base (snd (lookup os a)) = false).
Proof.
  intros H. destruct (scan_cases a) as [?|[?|[?|[c Hc]]]]; auto; congruence.
Qed.

(** A proof by cases on the first node of the list. *)
Ltac scan_step a next info :=
  destruct (scan_cases a) as [Hs|[[Hi Hf]|[(Hi & Hf & Hr)|[c Hc]]]];
  [ rewrite (scan_skip a next info Hs)
  | rewrite (scan_failed a next info Hi Hf)
  | rewrite (scan_rejected a next info Hi Hf Hr)
  | rewrite (scan_accepted a next info c Hc) ].

(** The log is faithful: replaying it on the record gives the record the
    loop returns. *)
Lemma scan_replay (ifa : list ifaddrs) (info : HostInfo) :
  replay info (snd (scan os base ifa info)) = fst (scan os base ifa info).
Proof.
  revert info; induction ifa as [|a next IH]; intros info; [reflexivity|].
  scan_step a next info; simpl; auto.
Qed.

(** The loop writes the qualified name at most once, and only a name the
    acceptance test allows. *)
Lemma scan_fqdn_writes (ifa : list ifaddrs) (info : HostInfo) :
  (fqdn_writes (snd (scan os base ifa info)) <= 1)%nat.
Proof.
  unfold fqdn_writes.
  revert info; induction ifa as [|a next IH]; intros info; [simpl; lia|].
  scan_step a next info; simpl; auto.
Qed.

Lemma scan_writes_accepted (ifa : list ifaddrs) (info : HostInfo) :
  Forall (write_accepted base) (snd (scan os base ifa info)).
Proof.
  revert info; induction ifa as [|a next IH]; intros info; [constructor|].
  scan_step a next info; simpl; auto.
  - repeat constructor. apply IH.
  - repeat constructor. apply IH.
  - repeat constructor. unfold candidate_of in Hc.
    destruct (is_inet a); [|discriminate].
    destruct (nonzero (fst (lookup os a))); [discriminate|].
    destruct (accepts base (snd (lookup os a))) eqn:E; [|discriminate].
    now injection Hc as <-.
Qed.

(** Nodes that contribute no name are passed over: the loop goes on with
    the rest of the list. *)
Lemma scan_app_none (pre rest : list ifaddrs) (info : HostInfo) :
  (forall x, In x pre -> candidate_of os base x = None) ->
  scan os base (pre ++ rest) info =
  emit (snd (scan os base pre info))
       (scan os base rest (fst (scan os base pre info))).
Proof.
  revert info; induction pre as [|a pre IH]; intros info Hnone.
  - simpl. now rewrite emit_nil.
  - assert (Ha : candidate_of os base a = None) by (apply Hnone; now left).
    assert (Hpre : forall x, In x pre -> candidate_of os base x = None)
      by (intros x Hx; apply Hnone; now right).
    rewrite <- app_comm_cons.
    destruct (candidate_none_cases a Ha) as [Hs|[[Hi Hf]|(Hi & Hf & Hr)]].
    + rewrite !(scan_skip a _ info Hs). now apply IH.
    + rewrite !(scan_failed a _ info Hi Hf), IH by assumption.
      now rewrite emit_emit.
    + rewrite !(scan_rejected a _ info Hi Hf Hr), IH by assumption.
      now rewrite emit_emit.
Qed.

(** Without any contributing node the qualified name is never written. *)
Lemma scan_none_no_write (ifa : list ifaddrs) (info : HostInfo) :
  (forall x, In x ifa -> candidate_of os base x = None) ->
  fqdn_writes (snd (scan os base ifa info)) = 0%nat.
Proof.
  unfold fqdn_writes.
  revert info; induction ifa as [|a next IH]; intros info Hnone; [reflexivity|].
  assert (Ha : candidate_of os base a = None) by (apply Hnone; now left).
  assert (Hn : forall x, In x next -> candidate_of os base x = None)
    by (intros x Hx; apply Hnone; now right).
  destruct (candidate_none_cases a Ha) as [Hs|[[Hi Hf]|(Hi & Hf & Hr)]].
  - rewrite (scan_skip a _ info Hs). now apply IH.
  - rewrite (scan_failed a _ info Hi Hf). simpl. now apply IH.
  - rewrite (scan_rejected a _ info Hi Hf Hr). simpl. now apply IH.
Qed.

End Scan.

(** ** [getfqdn] as a whole *)

Lemma getfqdn_enumeration_failed (os : OS) (info : HostInfo) :
  fst (os_getifaddrs os) <> 0 ->
  getfqdn os info =
  (SetError info (-2), [Getifaddrs (fst (os_getifaddrs os)); SetErrorCall (-2)]).
Proof.
  intros H. unfold getfqdn. destruct (os_getifaddrs os) as [ierr ifas]. simpl in *.
  apply nonzero_true in H. now rewrite H.
Qed.

Lemma getfqdn_enumerated (os : OS) (info : HostInfo) :
  fst (os_getifaddrs os) = 0 ->
  getfqdn os info =
  (fst (scan os (Hostname info) (snd (os_getifaddrs os)) info),
   Getifaddrs 0 :: snd (scan os (Hostname info) (snd (os_getifaddrs os)) info)
     ++ [Freeifaddrs]).
Proof.
  intros H. unfold getfqdn, GetHostname.
  destruct (os_getifaddrs os) as [ierr ifas]. simpl in *. now subst.
Qed.

Lemma getfqdn_cases (os : OS) :
  fst (os_getifaddrs os) <> 0 \/ fst (os_getifaddrs os) = 0.
Proof. destruct (Z.eq_dec (fst (os_getifaddrs os)) 0); auto. Qed.

Lemma getfqdn_replay (os : OS) (info : HostInfo) :
  replay info (snd (getfqdn os info)) = fst (getfqdn os info).
Proof.
  destruct (getfqdn_cases os) as [H|H].
  - now rewrite getfqdn_enumeration_failed.
  - rewrite getfqdn_enumerated by assumption. simpl.
    change (fold_left apply_call ?l ?i) with (replay i l).
    rewrite replay_app, scan_replay. reflexivity.
Qed.

Lemma getfqdn_writes_accepted (os : OS) (info : HostInfo) :
  Forall (write_accepted (Hostname info)) (snd (getfqdn os info)).
Proof.
  destruct (getfqdn_cases os) as [H|H].
  - rewrite getfqdn_enumeration_failed by assumption. repeat constructor.
  - rewrite getfqdn_enumerated by assumption. simpl. constructor; [exact I|].
    apply Forall_app. split; [apply scan_writes_accepted | repeat constructor].
Qed.

Lemma getfqdn_fqdn_writes (os : OS) (info : HostInfo) :
  (fqdn_writes (snd (getfqdn os info)) <= 1)%nat.
Proof.
  destruct (getfqdn_cases os) as [H|H].
  - rewrite getfqdn_enumeration_failed by assumption. cbv. lia.
  - rewrite getfqdn_enumerated by assumption.
    pose proof (scan_fqdn_writes os (Hostname info) (snd (os_getifaddrs os)) info) as Hs.
    unfold fqdn_writes in *. simpl. rewrite filter_app, length_app. simpl. lia.
Qed.

(** ** The record under replay *)

Lemma Forall_firstn_prefix {A : Type} (P : A -> Prop) (k : nat) (l : list A) :
  Forall P l -> Forall P (firstn k l).
Proof.
  intros H. rewrite <- (firstn_skipn k l) in H.
  now apply Forall_app in H.
Qed.

Lemma replay_Hostname (info : HostInfo) (log : list call) :
  Hostname (replay info log) = Hostname info.
Proof.
  revert info; induction log as [|c log IH]; intros info; [reflexivity|].
  simpl. change (fold_left apply_call ?l ?i) with (replay i l).
  rewrite IH. now destruct c.
Qed.

Lemma replay_TimerTid (info : HostInfo) (log : list call) :
  TimerTid (replay info log) = TimerTid info.
Proof.
  revert info; induction log as [|c log IH]; intros info; [reflexivity|].
  simpl. change (fold_left apply_call ?l ?i) with (replay i l).
  rewrite IH. now destruct c.
Qed.

Lemma replay_no_write (info : HostInfo) (log : list call) :
  Forall (fun c => is_fqdn_write c = false) log ->
  Fqdn (replay info log) = Fqdn info.
Proof.
  revert info; induction log as [|c log IH]; intros info H; [reflexivity|].
  inversion H as [|? ? Hc Hl]; subst.
  simpl. change (fold_left apply_call ?l ?i) with (replay i l).
  rewrite IH by assumption. destruct c; simpl in *; congruence.
Qed.

Lemma fqdn_writes_none (log : list call) :
  fqdn_writes log = 0%nat -> Forall (fun c => is_fqdn_write c = false) log.
Proof.
  unfold fqdn_writes. induction log as [|c log IH]; [constructor|].
  simpl. destruct (is_fqdn_write c) eqn:E; [discriminate|].
  intros H. constructor; auto.
Qed.

Lemma accepted_write_invariant (info : HostInfo) (fqdn : string) :
  accepts (Hostname info) fqdn = true ->
  fqdn_invariant (SetFqdn_fields info fqdn).
Proof.
  intros H. right. simpl.
  now apply (accepts_true_iff (Hostname info) fqdn).
Qed.

Lemma replay_invariant (info : HostInfo) (log : list call) :
  Forall (write_accepted (Hostname info)) log ->
  fqdn_invariant info -> fqdn_invariant (replay info log).
Proof.
  revert info; induction log as [|c log IH]; intros info H Hinv; [exact Hinv|].
  inversion H as [|? ? Hc Hl]; subst.
  simpl. change (fold_left apply_call ?l ?i) with (replay i l).
  apply IH.
  - now destruct c.
  - destruct c; simpl; try exact Hinv.
    now apply accepted_write_invariant.
Qed.

Lemma HostInfo_new_names (os : OS) :
  Fqdn (HostInfo_new os) = Hostname (HostInfo_new os) /\
  Hostname (HostInfo_new os) = snd (os_gethostname os).
Proof. unfold HostInfo_new. now destruct (os_gethostname os). Qed.

(** ** First accepted candidate *)

(** C4. When several addresses would yield accepted candidates, the
    resolver records the first accepted candidate in enumeration order and
    stops scanning right after it: with [a] the first node that
    contributes a name [c], the run ends with the lookup of [a], the
    acceptance test, the write of [c], the cancellation of the timer and
    the release of the list, and nothing of the nodes after [a] is looked
    up.  In every run the qualified name is written at most once. *)
Theorem first_accepted_candidate_wins (os : OS) (info : HostInfo) :
  (fqdn_writes (snd (getfqdn os info)) <= 1)%nat /\
  forall (pre : list ifaddrs) (a : ifaddrs) (post : list ifaddrs) (c : string),
    os_getifaddrs os = (0, pre ++ a :: post) ->
    (forall x, In x pre -> candidate_of os (Hostname info) x = None) ->
    candidate_of os (Hostname info) a = Some c ->
    Fqdn (fst (getfqdn os info)) = c /\
    Error (fst (getfqdn os info)) = 0 /\
    fqdn_writes (snd (getfqdn os info)) = 1%nat /\
    snd (getfqdn os info) =
      Getifaddrs 0 :: snd (scan os (Hostname info) pre info) ++
      [Getnameinfo (ifa_addr a) (addrlen_of a) 0 c; FindCall c (Hostname info);
       SetFqdnCall c; PthreadCancelCall (TimerTid info); Freeifaddrs].
Proof.
  split; [apply getfqdn_fqdn_writes|].
  intros pre a post c Henum Hpre Ha.
  assert (H0 : fst (os_getifaddrs os) = 0) by now rewrite Henum.
  rewrite (getfqdn_enumerated os info H0), Henum. simpl snd. simpl fst.
  rewrite (scan_app_none os (Hostname info) pre (a :: post) info Hpre).
  rewrite (scan_accepted os (Hostname info) a post _ c Ha).
  pose proof (scan_none_no_write os (Hostname info) pre info Hpre) as Hw.
  assert (Htid : TimerTid (fst (scan os (Hostname info) pre info)) = TimerTid info)
    by (rewrite <- scan_replay; apply replay_TimerTid).
  unfold emit, SetFqdn. simpl. rewrite Htid. repeat split.
  - unfold fqdn_writes in *.
    change (filter is_fqdn_write (Getifaddrs 0 :: ?l)) with (filter is_fqdn_write l).
    rewrite !filter_app, !length_app, Hw. reflexivity.
  - now rewrite <- !app_assoc.
Qed.

Lemma first_accepted_candidate_wins_witness :
  candidate_of os_node01 "node01" eth0 = Some "node01.cluster.example.com" /\
  candidate_of os_node01 "node01" eth1 = Some "node01.lan.example.com" /\
  Fqdn (fst (getfqdn os_node01 (main_info os_node01 ["a.out"; "50"]))) =
    "node01.cluster.example.com" /\
  fqdn_writes (snd (getfqdn os_node01 (main_info os_node01 ["a.out"; "50"]))) = 1%nat.
Proof.
  destruct (first_accepted_candidate_wins os_node01 (main_info os_node01 ["a.out"; "50"]))
    as [_ H].
  destruct (H [loopback] eth0 [eth1] "node01.cluster.example.com")
    as (Hf & _ & Hw & _).
  - reflexivity.
  - intros x [<-|[]]. reflexivity.
  - reflexivity.
  - split; [reflexivity | split; [reflexivity | split; [exact Hf | exact Hw]]].
Defined.

(** ** The invariant of the record *)

(** C6. At every point of a resolution the [Fqdn] field is either equal
    to the [Hostname] field or contains it as a substring and is strictly
    longer: this holds of the record the constructor builds, of the record
    handed to the lookup thread, after any number [k] of the calls of the
    thread (so after every write), when the thread returns, and of the
    record [main] reads once the thread is retired. *)
Theorem fqdn_invariant_at_every_point (os : OS) (tid : Z) (k : nat) :
  fqdn_invariant (HostInfo_new os) /\
  fqdn_invariant (SetTimerThreadId (HostInfo_new os) tid) /\
  fqdn_invariant
    (replay (SetTimerThreadId (HostInfo_new os) tid)
       (firstn k (snd (getfqdn os (SetTimerThreadId (HostInfo_new os) tid))))) /\
  fqdn_invariant (fst (getfqdn os (SetTimerThreadId (HostInfo_new os) tid))) /\
  fqdn_invariant (info_after_rdns os (SetTimerThreadId (HostInfo_new os) tid)).
Proof.
  pose proof (HostInfo_new_names os) as [Hnew _].
  set (info := SetTimerThreadId (HostInfo_new os) tid).
  assert (H0 : fqdn_invariant info) by (left; exact Hnew).
  pose proof (getfqdn_writes_accepted os info) as Hlog.
  split; [left; exact Hnew|]. split; [exact H0|]. split; [|split].
  - apply replay_invariant; [now apply Forall_firstn_prefix | exact H0].
  - rewrite <- getfqdn_replay. now apply replay_invariant.
  - unfold info_after_rdns. apply replay_invariant; [|exact H0].
    destruct (os_rdns_steps os); [now apply Forall_firstn_prefix | exact Hlog].
Qed.

(** ** Enumeration failure and lookup failure *)

Lemma lookups_app (l1 l2 : list call) :
  lookups (l1 ++ l2) = lookups l1 ++ lookups l2.
Proof. apply flat_map_app. Qed.

Lemma names_tested_app (l1 l2 : list call) :
  names_tested (l1 ++ l2) = names_tested l1 ++ names_tested l2.
Proof. apply flat_map_app. Qed.

Lemma names_obtained_app (l1 l2 : list call) :
  names_obtained (l1 ++ l2) = names_obtained l1 ++ names_obtained l2.
Proof. apply flat_map_app. Qed.

Lemma candidate_is_inet (os : OS) (base : string) (a : ifaddrs) (c : string) :
  candidate_of os base a = Some c -> is_inet a = true.
Proof. unfold candidate_of. now destruct (is_inet a). Qed.

(** Every IPv4 or IPv6 node up to the first accepted one is looked up, in
    order. *)
Lemma scan_lookups (os : OS) (base : string) (ifa : list ifaddrs) (info : HostInfo) :
  lookups (snd (scan os base ifa info)) =
  map ifa_addr (filter is_inet (upto_first_accepted os base ifa)).
Proof.
  revert info; induction ifa as [|a next IH]; intros info; [reflexivity|].
  destruct (scan_cases os base a) as [Hs|[[Hi Hf]|[(Hi & Hf & Hr)|[c Hc]]]].
  - rewrite (scan_skip os base a next info Hs). simpl.
    unfold candidate_of. rewrite Hs. simpl. rewrite Hs. apply IH.
  - rewrite (scan_failed os base a next info Hi Hf). simpl.
    unfold candidate_of. rewrite Hi, Hf. simpl. rewrite Hi. simpl. now rewrite IH.
  - rewrite (scan_rejected os base a next info Hi Hf Hr). simpl.
    unfold candidate_of. rewrite Hi, Hf, Hr. simpl. rewrite Hi. simpl. now rewrite IH.
  - rewrite (scan_accepted os base a next info c Hc). simpl. rewrite Hc. simpl.
    now rewrite (candidate_is_inet os base a c Hc).
Qed.

(** Every name a lookup returns is put to the acceptance test. *)
Lemma scan_tests_every_name (os : OS) (base : string) (ifa : list ifaddrs)
  (info : HostInfo) :
  names_tested (snd (scan os base ifa info)) =
  names_obtained (snd (scan os base ifa info)).
Proof.
  revert info; induction ifa as [|a next IH]; intros info; [reflexivity|].
  destruct (scan_cases os base a) as [Hs|[[Hi Hf]|[(Hi & Hf & Hr)|[c Hc]]]].
  - rewrite (scan_skip os base a next info Hs). apply IH.
  - rewrite (scan_failed os base a next info Hi Hf). simpl. rewrite Hf. apply IH.
  - rewrite (scan_rejected os base a next info Hi Hf Hr). simpl. rewrite Hf.
    simpl. now rewrite IH.
  - rewrite (scan_accepted os base a next info c Hc). reflexivity.
Qed.


(** C7. If the enumeration of the local addresses fails, the resolver sets
    the error state to -2 (enumeration failed) and returns after these two
    calls, without any reverse lookup and without any acceptance test.  It
    is the only condition that skips the matching: when the enumeration
    succeeds, every IPv4 or IPv6 address up to the first accepted one is
    looked up, in enumeration order, and every name a lookup returns is
    put to the acceptance test. *)
Theorem enumeration_failure_skips_matching (os : OS) (info : HostInfo) :
  (fst (os_getifaddrs os) <> 0 ->
   Error (fst (getfqdn os info)) = -2 /\
   Fqdn (fst (getfqdn os info)) = Fqdn info /\
   snd (getfqdn os info) =
     [Getifaddrs (fst (os_getifaddrs os)); SetErrorCall (-2)] /\
   lookups (snd (getfqdn os info)) = [] /\
   names_tested (snd (getfqdn os info)) = []) /\
  (fst (os_getifaddrs os) = 0 ->
   lookups (snd (getfqdn os info)) =
     map ifa_addr
       (filter is_inet
          (upto_first_accepted os (Hostname info) (snd (os_getifaddrs os)))) /\
   names_tested (snd (getfqdn os info)) = names_obtained (snd (getfqdn os info))).
Proof.
  split; intros H.
  - rewrite (getfqdn_enumeration_failed os info H). now repeat split.
  - rewrite (getfqdn_enumerated os info H). simpl snd.
    change (lookups (Getifaddrs 0 :: ?l)) with (lookups l).
    change (names_tested (Getifaddrs 0 :: ?l)) with (names_tested l).
    change (names_obtained (Getifaddrs 0 :: ?l)) with (names_obtained l).
    rewrite lookups_app, names_tested_app, names_obtained_app. simpl.
    rewrite !app_nil_r. split; [apply scan_lookups | apply scan_tests_every_name].
Qed.

Lemma enumeration_failure_skips_matching_witness :
  snd (getfqdn os_no_ifaddrs (main_info os_no_ifaddrs ["a.out"; "50"])) =
    [Getifaddrs (-1); SetErrorCall (-2)] /\
  names_tested (snd (getfqdn os_node01 (main_info os_node01 ["a.out"; "50"]))) =
    ["node01.cluster.example.com"].
Proof.
  split.
  - destruct (enumeration_failure_skips_matching os_no_ifaddrs
                (main_info os_no_ifaddrs ["a.out"; "50"])) as [H _].
    destruct H as (_ & _ & H & _); [simpl; lia | exact H].
  - destruct (enumeration_failure_skips_matching os_node01
                (main_info os_node01 ["a.out"; "50"])) as [_ H].
    destruct H as [_ H]; [reflexivity | rewrite H; reflexivity].
Defined.



(** ** The paths of [main] *)

Lemma main_paths (os : OS) (argv : list string) :
  (List.length argv <> 2%nat /\
   main os argv = (-1, [Cerr "error: a.out [timeout msec]"])) \/
  (List.length argv = 2%nat /\ ~ timer_created os argv /\
   main os argv =
     (-2, firstn 1 (thread_calls os argv) ++ [Cerr "error creating timer thread"])) \/
  (List.length argv = 2%nat /\ timer_created os argv /\ ~ rdns_created os /\
   main os argv =
     (-1, firstn 2 (thread_calls os argv) ++ [Cerr "error creating rdns thread"])) \/
  (List.length argv = 2%nat /\ timer_created os argv /\ rdns_created os /\
   ~ timer_joined os argv /\
   main os argv =
     (-3, firstn 3 (thread_calls os argv) ++ [Cerr "error waiting for timer"])) \/
  (List.length argv = 2%nat /\ timer_created os argv /\ rdns_created os /\
   timer_joined os argv /\ ~ rdns_joined os /\
   main os argv =
     (-5, thread_calls os argv ++ [Cerr "error waiting for rdns thread"])) \/
  (List.length argv = 2%nat /\ timer_created os argv /\ rdns_created os /\
   timer_joined os argv /\ rdns_joined os /\
   main os argv =
     (0, thread_calls os argv ++
         report (os_pthread_cancel os (rDnsTid os) =? ESRCH)
                (info_after_rdns os (main_info os argv)))).
Proof.
  unfold main, thread_calls, timer_created, rdns_created, timer_joined,
    rdns_joined, main_info, timerTid, rDnsTid.
  destruct (Z.of_nat (List.length argv) =? 2) eqn:Hargc; simpl negb; cbv iota.
  2:{ left. split; [|reflexivity]. apply Z.eqb_neq in Hargc. lia. }
  apply Z.eqb_eq in Hargc. assert (Hlen : List.length argv = 2%nat) by lia.
  right.
  destruct (os_pthread_create os (timer_routine (atoi (nth 1 argv ""))))
    as [ierr1 tid1].
  simpl fst; simpl snd.
  destruct (nonzero ierr1) eqn:H1.
  { left. apply nonzero_true in H1. now repeat split. }
  apply nonzero_false in H1. right.
  destruct (os_pthread_create os getfqdn_routine) as [ierr2 tid2].
  simpl fst; simpl snd.
  destruct (nonzero ierr2) eqn:H2.
  { left. apply nonzero_true in H2. now repeat split. }
  apply nonzero_false in H2. right.
  destruct (nonzero (os_pthread_join os tid1)) eqn:H3.
  { left. apply nonzero_true in H3. now repeat split. }
  apply nonzero_false in H3. right.
  destruct (nonzero (os_pthread_join os tid2)) eqn:H5.
  { left. apply nonzero_true in H5. now repeat split. }
  apply nonzero_false in H5. right.
  now repeat split.
Qed.

Lemma report_last (log : list main_call) (rdnsSuccess : bool) (info : HostInfo) :
  reports (log ++ report rdnsSuccess info) (GetFqdn info).
Proof.
  unfold reports, report. rewrite !app_assoc. apply last_last.
Qed.

(** The value [main] returns, when it returns, is 0 exactly on the paths
    that reach the report (the last line printed is then the [fqdn=]
    line), which are the runs with one argument in which the four thread
    calls succeed, whatever the host name, the enumeration, the lookups
    and the scheduling did; -1 for a wrong argument count or a failed
    creation of the lookup thread; -2 for a failed creation of the timer
    thread; -3 for a failed wait on the timer thread; -5 for a failed wait
    on the lookup thread; and it is never anything else. *)
Theorem main_exit_code (os : OS) (argv : list string) :
  (fst (main os argv) = 0 \/ fst (main os argv) = -1 \/ fst (main os argv) = -2 \/
   fst (main os argv) = -3 \/ fst (main os argv) = -5) /\
  (fst (main os argv) = 0 <-> exists value, reports (snd (main os argv)) value) /\
  (fst (main os argv) = 0 <->
   List.length argv = 2%nat /\ timer_created os argv /\ rdns_created os /\
   timer_joined os argv /\ rdns_joined os) /\
  (fst (main os argv) = -1 <->
   List.length argv <> 2%nat \/
   (List.length argv = 2%nat /\ timer_created os argv /\ ~ rdns_created os)) /\
  (fst (main os argv) = -2 <->
   List.length argv = 2%nat /\ ~ timer_created os argv) /\
  (fst (main os argv) = -3 <->
   List.length argv = 2%nat /\ timer_created os argv /\ rdns_created os /\
   ~ timer_joined os argv) /\
  (fst (main os argv) = -5 <->
   List.length argv = 2%nat /\ timer_created os argv /\ rdns_created os /\
   timer_joined os argv /\ ~ rdns_joined os).
Proof.
  destruct (main_paths os argv)
    as [(Hl & E)|[(Hl & H1 & E)|[(Hl & H1 & H2 & E)|[(Hl & H1 & H2 & H3 & E)
       |[(Hl & H1 & H2 & H3 & H5 & E)|(Hl & H1 & H2 & H3 & H5 & E)]]]]];
    rewrite E; cbn [fst snd];
    (split; [tauto|]);
    (split;
     [ first
         [ split; [intros _; eexists; apply report_last | reflexivity]
         | split; [discriminate | intros [value Hv]; exfalso;
                   unfold reports in Hv; rewrite ?last_last in Hv;
                   simpl in Hv; discriminate Hv ] ]
     | repeat split; intros; try discriminate; tauto ]).
Qed.

Lemma main_exit_code_witness :
  fst (main os_node01 ["a.out"; "50"]) = 0 /\
  fst (main os_node01 ["a.out"]) = -1.
Proof.
  destruct (main_exit_code os_node01 ["a.out"; "50"]) as (_ & _ & H0 & _).
  destruct (main_exit_code os_node01 ["a.out"]) as (_ & _ & _ & H1 & _).
  split.
  - apply H0. repeat split; reflexivity.
  - apply H1. left. simpl. lia.
Defined.

(** ** Fallback to the host name *)


Lemma GetFqdn_replay_no_write (info : HostInfo) (log : list call) :
  Fqdn info = Hostname info ->
  Forall (fun c => is_fqdn_write c = false) log ->
  GetFqdn (replay info log) = Hostname info.
Proof.
  intros Hn Hlog. unfold GetFqdn.
  destruct (nonzero (Error (replay info log))).
  - apply replay_Hostname.
  - now rewrite replay_no_write.
Qed.

Lemma main_info_names (os : OS) (argv : list string) :
  Fqdn (main_info os argv) = Hostname (main_info os argv) /\
  Hostname (main_info os argv) = snd (os_gethostname os).
Proof. apply HostInfo_new_names. Qed.

(** ** The command line *)

(** C3, as the code has it.  [main] checks the number of arguments only:
    with any count other than one argument it prints the usage line and
    returns -1 without creating a thread.  With exactly one argument the
    text is converted by [atoi] and not validated, and the creation of
    the timer thread with that value is the first call of the run. *)
Theorem main_checks_argument_count_only (os : OS) (argv : list string) :
  (List.length argv <> 2%nat ->
   main os argv = (-1, [Cerr "error: a.out [timeout msec]"])) /\
  (List.length argv = 2%nat ->
   exists rest,
     snd (main os argv) =
     PthreadCreate (timer_routine (atoi (nth 1 argv "")))
       (fst (os_pthread_create os (timer_routine (atoi (nth 1 argv ""))))) :: rest).
Proof.
  destruct (main_paths os argv)
    as [(Hl & E)|[(Hl & _ & E)|[(Hl & _ & _ & E)|[(Hl & _ & _ & _ & E)
       |[(Hl & _ & _ & _ & _ & E)|(Hl & _ & _ & _ & _ & E)]]]]];
    (split; [intros Hn | intros Hn]); try contradiction; try exact E;
    rewrite E; unfold thread_calls; cbn [snd firstn app]; eexists; reflexivity.
Qed.

Lemma main_checks_argument_count_only_witness :
  main os_node01 ["a.out"] = (-1, [Cerr "error: a.out [timeout msec]"]) /\
  exists rest,
    snd (main os_node01 ["a.out"; "abc"]) = PthreadCreate (timer_routine 0) 0 :: rest.
Proof.
  destruct (main_checks_argument_count_only os_node01 ["a.out"]) as [H1 _].
  destruct (main_checks_argument_count_only os_node01 ["a.out"; "abc"]) as [_ H2].
  split.
  - apply H1. simpl. lia.
  - apply H2. reflexivity.
Defined.

(** A negative timeout and a timeout that is not a number are not
    rejected: both threads are created and the run ends with the report
    and the value 0. *)
Lemma invalid_timeout_starts_the_race :
  spec_timeout_valid ["a.out"; "-5"] = false /\
  fst (main os_node01 ["a.out"; "-5"]) = 0 /\
  filter is_thread_create (snd (main os_node01 ["a.out"; "-5"])) =
    [PthreadCreate (timer_routine (-5)) 0; PthreadCreate getfqdn_routine 0] /\
  spec_timeout_valid ["a.out"; "abc"] = false /\
  fst (main os_node01 ["a.out"; "abc"]) = 0 /\
  filter is_thread_create (snd (main os_node01 ["a.out"; "abc"])) =
    [PthreadCreate (timer_routine 0) 0; PthreadCreate getfqdn_routine 0].
Proof. repeat split. Qed.

(** ** Release of the interface list *)

Lemma ifaddrs_held_app_free (log : list call) :
  ifaddrs_held (log ++ [Freeifaddrs]) = false.
Proof. unfold ifaddrs_held. now rewrite fold_left_app. Qed.

(** A lookup thread that returns holds no interface list: it released the
    one it obtained, or obtained none. *)
Lemma getfqdn_returns_released (os : OS) (info : HostInfo) :
  ifaddrs_held (snd (getfqdn os info)) = false.
Proof.
  destruct (getfqdn_cases os) as [H|H].
  - rewrite (getfqdn_enumeration_failed os info H). unfold ifaddrs_held. simpl.
    apply nonzero_true in H. now rewrite H.
  - rewrite (getfqdn_enumerated os info H). simpl snd.
    rewrite app_comm_cons. apply ifaddrs_held_app_free.
Qed.

(** C10, at a run the code fails on.  When the timer ends while the
    lookup thread is inside its first [getnameinfo], [main] cancels the
    thread there: the thread has obtained the interface list, never
    reaches [freeifaddrs], and is joined all the same; [main] reports the
    fallback and returns 0 with the list still allocated. *)
Theorem cancelled_lookup_keeps_ifaddrs :
  executed (os_rdns_steps os_slow_dns)
    (snd (getfqdn os_slow_dns (main_info os_slow_dns ["a.out"; "1"]))) =
    [Getifaddrs 0] /\
  ifaddrs_held
    (executed (os_rdns_steps os_slow_dns)
       (snd (getfqdn os_slow_dns (main_info os_slow_dns ["a.out"; "1"])))) = true /\
  main os_slow_dns ["a.out"; "1"] =
    (0, [PthreadCreate (timer_routine 1) 0; PthreadCreate getfqdn_routine 0;
         PthreadJoin 101 0; PthreadCancel 102 0; PthreadJoin 102 0;
         Cerr "rdns took too long, falling back to gethostname";
         Cerr "fqdn=node01"]).
Proof. repeat split. Qed.

(** ** The timer *)

Lemma to_int_small (z : Z) : -2147483648 <= z < 2147483648 -> to_int z = z.
Proof.
  intros H. unfold to_int.
  change (2 ^ 31) with 2147483648. change (2 ^ 32) with 4294967296.
  rewrite Z.mod_small; lia.
Qed.

Lemma ns_of_timespec_of_ns (n : Z) : ns_of (timespec_of_ns n) = n.
Proof.
  unfold ns_of, timespec_of_ns. simpl.
  pose proof (Z.div_mod n 1000000000). lia.
Qed.

Lemma timespec_of_ns_valid (n : Z) : 0 <= n -> timespec_valid (timespec_of_ns n) = true.
Proof.
  intros H. unfold timespec_valid, timespec_of_ns. simpl.
  pose proof (Z.mod_pos_bound n 1000000000).
  assert (0 <= n / 1000000000) by (apply Z.div_pos; lia).
  rewrite !andb_true_iff, !Z.leb_le. lia.
Qed.

(** On a valid request the loop blocks for the requested time in total,
    however often [nanosleep] is interrupted. *)
Lemma timer_loop_valid (signals : list Z) (rem : timespec) (elapsed : Z) :
  timespec_valid rem = true ->
  timer_loop rem signals elapsed = elapsed + ns_of rem.
Proof.
  revert rem elapsed; induction signals as [|s later IH]; intros rem elapsed Hv.
  - simpl. unfold nanosleep. rewrite Hv. reflexivity.
  - simpl. unfold nanosleep. rewrite Hv.
    destruct ((0 <=? s) && (s <? ns_of rem)) eqn:Hs; simpl; [|reflexivity].
    apply andb_true_iff in Hs as [Hs1 Hs2].
    apply Z.leb_le in Hs1. apply Z.ltb_lt in Hs2.
    rewrite IH by (apply timespec_of_ns_valid; lia).
    rewrite ns_of_timespec_of_ns. lia.
Qed.

(** Below one second the timer blocks for the requested milliseconds. *)
Lemma timer_below_one_second (msec : Z) (signals : list Z) :
  0 <= msec <= 999 -> timer msec signals = 1000000 * msec.
Proof.
  intros H. unfold timer. rewrite timer_loop_valid.
  - unfold ns_of, timer_request. cbn [tv_sec tv_nsec].
    rewrite to_int_small; lia.
  - unfold timespec_valid, timer_request. cbn [tv_sec tv_nsec].
    rewrite to_int_small by lia.
    rewrite !andb_true_iff, !Z.leb_le. lia.
Qed.

(** C2, at a duration the code fails on.  For 1000 milliseconds the
    request has [tv_sec = 0] and [tv_nsec = 1000000000], which is not a
    valid request: [nanosleep] fails with [EINVAL], the loop ends and the
    timer returns without having waited, whatever the signals. *)
Theorem timer_one_second_does_not_wait (signals : list Z) :
  timer_request 1000 = {| tv_sec := 0; tv_nsec := 1000000000 |} /\
  timespec_valid (timer_request 1000) = false /\
  errno (nanosleep (timer_request 1000) (hd_error signals)) = EINVAL /\
  timer 1000 signals = 0.
Proof.
  repeat split. destruct signals; reflexivity.
Qed.

(** * Further properties of the code *)

(** ** The result of the lookup thread *)

Section ScanResult.

Variable os : OS.
Variable base : string.

Lemma first_candidate_skip (a : ifaddrs) (next : list ifaddrs) :
  candidate_of os base a = None ->
  first_candidate os base (a :: next) = first_candidate os base next.
Proof. intros H. simpl. now rewrite H. Qed.

Lemma candidate_of_not_inet (a : ifaddrs) :
  is_inet a = false -> candidate_of os base a = None.
Proof. intros H. unfold candidate_of. now rewrite H. Qed.

Lemma candidate_of_failed (a : ifaddrs) :
  is_inet a = true -> nonzero (fst (lookup os a)) = true ->
  candidate_of os base a = None.
Proof. intros Hi Hf. unfold candidate_of. now rewrite Hi, Hf. Qed.

Lemma candidate_of_rejected (a : ifaddrs) :
  is_inet a = true -> nonzero (fst (lookup os a)) = false ->
  accepts base (snd (lookup os a)) = false ->
  candidate_of os base a = None.
Proof. intros Hi Hf Hr. unfold candidate_of. now rewrite Hi, Hf, Hr. Qed.

(** The record the loop returns, from the answers of the system. *)
Lemma scan_result (ifa : list ifaddrs) (info : HostInfo) :
  fst (scan os base ifa info) =
  match first_candidate os base ifa with
  | Some c => SetFqdn_fields info c
  | None => if any_lookup_failed os ifa then SetError info (-3) else info
  end.
Proof.
  revert info; induction ifa as [|a next IH]; intros info; [reflexivity|].
  destruct (scan_cases os base a) as [Hs|[[Hi Hf]|[(Hi & Hf & Hr)|[c Hc]]]].
  - rewrite (scan_skip os base a next info Hs),
      (first_candidate_skip a next (candidate_of_not_inet a Hs)), IH.
    unfold any_lookup_failed. simpl. now rewrite Hs.
  - rewrite (scan_failed os base a next info Hi Hf),
      (first_candidate_skip a next (candidate_of_failed a Hi Hf)).
    unfold emit. cbn [fst]. rewrite IH.
    unfold any_lookup_failed. simpl. rewrite Hi, Hf. simpl.
    destruct (first_candidate os base next); [reflexivity|].
    now destruct (existsb _ next).
  - rewrite (scan_rejected os base a next info Hi Hf Hr),
      (first_candidate_skip a next (candidate_of_rejected a Hi Hf Hr)).
    unfold emit. cbn [fst]. rewrite IH.
    unfold any_lookup_failed. simpl. now rewrite Hi, Hf.
  - rewrite (scan_accepted os base a next info c Hc). simpl. now rewrite Hc.
Qed.

(** The log of the loop: without a contributed name the qualified name is
    never written; with one, the log ends with its write and the
    cancellation of the timer, and nothing before writes it. *)
Lemma scan_log_shape (ifa : list ifaddrs) (info : HostInfo) :
  match first_candidate os base ifa with
  | Some c =>
      exists l, snd (scan os base ifa info) =
                l ++ [SetFqdnCall c; PthreadCancelCall (TimerTid info)] /\
                Forall (fun e => is_fqdn_write e = false) l /\
                cancels l = [] /\ frees l = 0%nat
  | None =>
      Forall (fun e => is_fqdn_write e = false) (snd (scan os base ifa info)) /\
      cancels (snd (scan os base ifa info)) = [] /\
      frees (snd (scan os base ifa info)) = 0%nat
  end.
Proof.
  revert info; induction ifa as [|a next IH]; intros info;
    [simpl; repeat split; constructor|].
  destruct (scan_cases os base a) as [Hs|[[Hi Hf]|[(Hi & Hf & Hr)|[c Hc]]]].
  - rewrite (scan_skip os base a next info Hs),
      (first_candidate_skip a next (candidate_of_not_inet a Hs)). apply IH.
  - rewrite (scan_failed os base a next info Hi Hf),
      (first_candidate_skip a next (candidate_of_failed a Hi Hf)).
    specialize (IH (SetError info (-3))). unfold emit. cbn [snd].
    destruct (first_candidate os base next) as [c|].
    + destruct IH as (l & -> & Hl & Hc & Hfr).
      exists (failed_lookup os a ++ l). rewrite <- app_assoc. repeat split.
      * repeat constructor. exact Hl.
      * exact Hc.
      * exact Hfr.
    + destruct IH as (Hl & Hc & Hfr). repeat split.
      * repeat constructor. exact Hl.
      * exact Hc.
      * exact Hfr.
  - rewrite (scan_rejected os base a next info Hi Hf Hr),
      (first_candidate_skip a next (candidate_of_rejected a Hi Hf Hr)).
    specialize (IH info). unfold emit. cbn [snd].
    destruct (first_candidate os base next) as [c|].
    + destruct IH as (l & -> & Hl & Hc & Hfr).
      eexists (_ :: _ :: l). repeat split.
      * repeat constructor. exact Hl.
      * exact Hc.
      * exact Hfr.
    + destruct IH as (Hl & Hc & Hfr). repeat split.
      * repeat constructor. exact Hl.
      * exact Hc.
      * exact Hfr.
  - rewrite (scan_accepted os base a next info c Hc). simpl. rewrite Hc.
    eexists [_; _]. repeat split. repeat constructor.
Qed.

End ScanResult.

Lemma getfqdn_result (os : OS) (info : HostInfo) :
  fst (getfqdn os info) = resolution os info.
Proof.
  unfold resolution. destruct (getfqdn_cases os) as [H|H].
  - rewrite (getfqdn_enumeration_failed os info H).
    apply nonzero_true in H. now rewrite H.
  - rewrite (getfqdn_enumerated os info H). cbn [fst].
    rewrite scan_result. apply nonzero_false in H. now rewrite H.
Qed.

Lemma resolution_names (os : OS) (info : HostInfo) :
  Hostname (resolution os info) = Hostname info /\
  TimerTid (resolution os info) = TimerTid info.
Proof.
  unfold resolution. destruct (nonzero _); [now split|].
  destruct (first_candidate _ _ _); [now split|].
  destruct (any_lookup_failed _ _); now split.
Qed.

(** X1. A run of [getfqdn] that returns leaves the record determined by
    the answers of the system: error -2 if the enumeration failed;
    otherwise the first contributed name with the error cleared, whatever
    lookups failed before it; otherwise error -3 if some lookup failed,
    also when later lookups succeeded with names that were rejected;
    otherwise the record as it was.  The host name and the timer thread
    identifier are never changed. *)
Theorem getfqdn_leaves_resolution (os : OS) (info : HostInfo) :
  fst (getfqdn os info) = resolution os info /\
  Hostname (fst (getfqdn os info)) = Hostname info /\
  TimerTid (fst (getfqdn os info)) = TimerTid info.
Proof.
  rewrite getfqdn_result. split; [reflexivity | apply resolution_names].
Qed.

(** X2. Running [getfqdn] again on the record it left, against the same
    answers of the system, leaves the record unchanged. *)
Theorem getfqdn_idempotent (os : OS) (info : HostInfo) :
  fst (getfqdn os (fst (getfqdn os info))) = fst (getfqdn os info).
Proof.
  rewrite !getfqdn_result.
  destruct (resolution_names os info) as [Hh _].
  unfold resolution at 1. rewrite Hh. unfold resolution.
  destruct (nonzero (fst (os_getifaddrs os))); [reflexivity|].
  destruct (first_candidate os (Hostname info) (snd (os_getifaddrs os)));
    [reflexivity|].
  destruct (any_lookup_failed os (snd (os_getifaddrs os))); reflexivity.
Qed.

(** ** The log of the lookup thread, further *)

Lemma fqdn_writes_app (l1 l2 : list call) :
  fqdn_writes (l1 ++ l2) = (fqdn_writes l1 + fqdn_writes l2)%nat.
Proof. unfold fqdn_writes. now rewrite filter_app, length_app. Qed.

Lemma no_write_fqdn_writes (l : list call) :
  Forall (fun e => is_fqdn_write e = false) l -> fqdn_writes l = 0%nat.
Proof.
  unfold fqdn_writes. induction 1 as [|e l He _ IH]; [reflexivity|].
  simpl. now rewrite He.
Qed.

Lemma replay_no_record_write (info : HostInfo) (l : list call) :
  Forall (fun e => is_record_write e = false) l -> replay info l = info.
Proof.
  induction 1 as [|e l He _ IH]; [reflexivity|].
  simpl. change (fold_left apply_call ?l ?i) with (replay i l).
  destruct e; try discriminate; exact IH.
Qed.

(** A prefix that contains the write of the name contains all that comes
    before it. *)
Lemma firstn_with_write (k : nat) (l1 l2 : list call) (c : string) :
  Forall (fun e => is_fqdn_write e = false) l1 ->
  (0 < fqdn_writes (firstn k (l1 ++ SetFqdnCall c :: l2)))%nat ->
  firstn k (l1 ++ SetFqdnCall c :: l2) =
  l1 ++ SetFqdnCall c :: firstn (k - List.length l1 - 1) l2.
Proof.
  intros Hl1 Hw. rewrite firstn_app in *. rewrite fqdn_writes_app in Hw.
  rewrite (no_write_fqdn_writes (firstn k l1)) in Hw
    by now apply Forall_firstn_prefix.
  destruct (k - List.length l1)%nat as [|m] eqn:Hk;
    [unfold fqdn_writes in Hw; simpl in Hw; lia|].
  rewrite firstn_all2 by lia. simpl. now rewrite Nat.sub_0_r.
Qed.

(** The log of a run of [getfqdn] after a successful enumeration. *)
Lemma getfqdn_log_shape (os : OS) (info : HostInfo) :
  fst (os_getifaddrs os) = 0 ->
  exists l,
    Forall (fun e => is_fqdn_write e = false) l /\
    cancels l = [] /\ frees l = 0%nat /\
    match first_candidate os (Hostname info) (snd (os_getifaddrs os)) with
    | Some c =>
        snd (getfqdn os info) =
        (Getifaddrs 0 :: l) ++
        SetFqdnCall c :: [PthreadCancelCall (TimerTid info); Freeifaddrs]
    | None => snd (getfqdn os info) = (Getifaddrs 0 :: l) ++ [Freeifaddrs]
    end.
Proof.
  intros H0. rewrite (getfqdn_enumerated os info H0). cbn [snd].
  pose proof (scan_log_shape os (Hostname info) (snd (os_getifaddrs os)) info) as Hs.
  destruct (first_candidate os (Hostname info) (snd (os_getifaddrs os))) as [c|].
  - destruct Hs as (l & -> & Hl & Hc & Hf). exists l. repeat split; try assumption.
    simpl. now rewrite <- app_assoc.
  - destruct Hs as (Hl & Hc & Hf). eexists. repeat split; eassumption.
Qed.

(** The state of the record at a point after the write of the name. *)
Lemma replay_after_write (os : OS) (info : HostInfo) (k : nat) :
  (0 < fqdn_writes (firstn k (snd (getfqdn os info))))%nat ->
  exists c,
    first_candidate os (Hostname info) (snd (os_getifaddrs os)) = Some c /\
    Fqdn (replay info (firstn k (snd (getfqdn os info)))) = c /\
    Error (replay info (firstn k (snd (getfqdn os info)))) = 0.
Proof.
  intros Hw. destruct (getfqdn_cases os) as [H|H].
  - rewrite (getfqdn_enumeration_failed os info H) in Hw.
    destruct k as [|[|[|k]]]; cbv in Hw; lia.
  - destruct (getfqdn_log_shape os info H) as (l & Hl & _ & _ & Hlog).
    destruct (first_candidate os (Hostname info) (snd (os_getifaddrs os))) as [c|].
    + exists c. split; [reflexivity|]. rewrite Hlog in *.
      rewrite firstn_with_write by (try assumption; now constructor).
      rewrite replay_app. simpl.
      change (fold_left apply_call ?l ?i) with (replay i l).
      rewrite replay_no_record_write; [now split|].
      apply Forall_firstn_prefix. repeat constructor.
    + rewrite Hlog in Hw.
      rewrite no_write_fqdn_writes in Hw; [lia|].
      apply Forall_firstn_prefix. apply Forall_app.
      split; [now constructor | repeat constructor].
Qed.

(** X3. Once the lookup thread has written the qualified name, the error
    state is 0 and the name is the first contributed one at every later
    point of its run: no later call sets an error or writes another
    name. *)
Theorem error_stays_clear_after_write (os : OS) (info : HostInfo) (k : nat) :
  (0 < fqdn_writes (firstn k (snd (getfqdn os info))))%nat ->
  Error (replay info (firstn k (snd (getfqdn os info)))) = 0 /\
  first_candidate os (Hostname info) (snd (os_getifaddrs os)) =
    Some (Fqdn (replay info (firstn k (snd (getfqdn os info))))).
Proof.
  intros Hw. destruct (replay_after_write os info k Hw) as (c & Hc & Hf & He).
  split; [exact He | now rewrite Hf].
Qed.

Lemma error_stays_clear_after_write_witness :
  Error (replay (main_info os_node01 ["a.out"; "50"])
           (firstn 7 (snd (getfqdn os_node01 (main_info os_node01 ["a.out"; "50"])))))
  = 0.
Proof.
  destruct (error_stays_clear_after_write os_node01
              (main_info os_node01 ["a.out"; "50"]) 7) as [H _].
  - cbv. lia.
  - exact H.
Defined.

(** ** The reverse lookups *)

Lemma inet_wellformed (a : ifaddrs) :
  is_inet a = true ->
  exists s, ifa_addr a = Some s /\
    ((sa_family s = AF_INET /\ addrlen_of a = sizeof_sockaddr_in) \/
     (sa_family s = AF_INET6 /\ addrlen_of a = sizeof_sockaddr_in6)).
Proof.
  unfold is_inet, addrlen_of, family. destruct (ifa_addr a) as [s|]; [|discriminate].
  intros H. exists s. split; [reflexivity|].
  destruct (sa_family s =? AF_INET) eqn:E4.
  - left. apply Z.eqb_eq in E4. now split.
  - right. simpl in H. apply Z.eqb_eq in H. now split.
Qed.

Lemma scan_lookups_wellformed (os : OS) (base : string) (ifa : list ifaddrs)
  (info : HostInfo) :
  Forall lookup_wellformed (snd (scan os base ifa info)).
Proof.
  revert info; induction ifa as [|a next IH]; intros info; [constructor|].
  destruct (scan_cases os base a) as [Hs|[[Hi Hf]|[(Hi & Hf & Hr)|[c Hc]]]].
  - rewrite (scan_skip os base a next info Hs). apply IH.
  - rewrite (scan_failed os base a next info Hi Hf). simpl.
    constructor; [exact (inet_wellformed a Hi)|]. constructor; [exact I | apply IH].
  - rewrite (scan_rejected os base a next info Hi Hf Hr). simpl.
    constructor; [exact (inet_wellformed a Hi)|]. constructor; [exact I | apply IH].
  - rewrite (scan_accepted os base a next info c Hc). simpl.
    constructor; [exact (inet_wellformed a (candidate_is_inet os base a c Hc))|].
    repeat constructor.
Qed.

(** X4. Every [getnameinfo] call of the lookup thread is made on a
    non-null address of family [AF_INET] or [AF_INET6], with the size of
    the matching address structure: nodes without an address and nodes of
    another family are never looked up. *)
Theorem getnameinfo_calls_wellformed (os : OS) (info : HostInfo) :
  Forall lookup_wellformed (snd (getfqdn os info)).
Proof.
  destruct (getfqdn_cases os) as [H|H].
  - rewrite (getfqdn_enumeration_failed os info H). repeat constructor.
  - rewrite (getfqdn_enumerated os info H). cbn [snd].
    constructor; [exact I|]. apply Forall_app.
    split; [apply scan_lookups_wellformed | repeat constructor].
Qed.

Lemma upto_first_accepted_prefix (os : OS) (base : string) (ifa : list ifaddrs) :
  exists rest, ifa = upto_first_accepted os base ifa ++ rest.
Proof.
  induction ifa as [|a next [rest IH]]; [now exists []|].
  simpl. destruct (candidate_of os base a).
  - now exists next.
  - exists rest. simpl. now rewrite <- IH.
Qed.

Lemma upto_first_accepted_none (os : OS) (base : string) (ifa : list ifaddrs) :
  first_candidate os base ifa = None -> upto_first_accepted os base ifa = ifa.
Proof.
  induction ifa as [|a next IH]; [reflexivity|].
  simpl. destruct (candidate_of os base a); [discriminate|].
  intros H. now rewrite IH.
Qed.

Lemma getfqdn_lookups (os : OS) (info : HostInfo) :
  fst (os_getifaddrs os) = 0 ->
  lookups (snd (getfqdn os info)) =
  map ifa_addr
    (filter is_inet
       (upto_first_accepted os (Hostname info) (snd (os_getifaddrs os)))).
Proof.
  intros H. rewrite (getfqdn_enumerated os info H). cbn [snd].
  change (lookups (Getifaddrs 0 :: ?l)) with (lookups l).
  rewrite lookups_app. simpl. rewrite app_nil_r. apply scan_lookups.
Qed.

(** X5. After a successful enumeration the addresses looked up are an
    initial part of the IPv4 and IPv6 addresses of the enumeration, in
    order: no address is looked up twice or out of order.  When no
    address contributes a name, every one of them is looked up. *)
Theorem lookups_follow_enumeration (os : OS) (info : HostInfo) :
  fst (os_getifaddrs os) = 0 ->
  (exists rest,
     map ifa_addr (filter is_inet (snd (os_getifaddrs os))) =
     lookups (snd (getfqdn os info)) ++ rest) /\
  (first_candidate os (Hostname info) (snd (os_getifaddrs os)) = None ->
   lookups (snd (getfqdn os info)) =
   map ifa_addr (filter is_inet (snd (os_getifaddrs os)))).
Proof.
  intros H. rewrite (getfqdn_lookups os info H). split.
  - destruct (upto_first_accepted_prefix os (Hostname info) (snd (os_getifaddrs os)))
      as [rest Hrest].
    exists (map ifa_addr (filter is_inet rest)).
    rewrite <- map_app, <- filter_app, <- Hrest. reflexivity.
  - intros Hn. now rewrite upto_first_accepted_none.
Qed.

Lemma lookups_follow_enumeration_witness :
  (exists rest,
     [ifa_addr loopback; ifa_addr eth0; ifa_addr eth1] =
     lookups (snd (getfqdn os_node01 (main_info os_node01 ["a.out"; "50"]))) ++ rest) /\
  lookups (snd (getfqdn os_foreign_name (main_info os_foreign_name ["a.out"; "50"]))) =
    [ifa_addr eth0].
Proof.
  split.
  - destruct (lookups_follow_enumeration os_node01
                (main_info os_node01 ["a.out"; "50"]) eq_refl) as [H _].
    exact H.
  - destruct (lookups_follow_enumeration os_foreign_name
                (main_info os_foreign_name ["a.out"; "50"]) eq_refl) as [_ H].
    apply H. reflexivity.
Defined.

(** ** Cancellation of the timer and release of the list *)

Lemma cancels_app (l1 l2 : list call) : cancels (l1 ++ l2) = cancels l1 ++ cancels l2.
Proof. apply flat_map_app. Qed.

Lemma frees_app (l1 l2 : list call) : frees (l1 ++ l2) = (frees l1 + frees l2)%nat.
Proof. unfold frees. now rewrite filter_app, length_app. Qed.

(** X6. The lookup thread cancels a thread only when it writes the
    qualified name, and then the thread whose identifier the record
    holds: the cancellations of a run are as many as its writes of the
    name (none or one), all of [TimerTid]. *)
Theorem timer_cancelled_with_write (os : OS) (info : HostInfo) :
  cancels (snd (getfqdn os info)) =
  repeat (TimerTid info) (fqdn_writes (snd (getfqdn os info))).
Proof.
  destruct (getfqdn_cases os) as [H|H].
  - now rewrite (getfqdn_enumeration_failed os info H).
  - destruct (getfqdn_log_shape os info H) as (l & Hl & Hc & _ & Hlog).
    destruct (first_candidate os (Hostname info) (snd (os_getifaddrs os)));
      rewrite Hlog, cancels_app, fqdn_writes_app;
      change (cancels (Getifaddrs 0 :: l)) with (cancels l);
      change (fqdn_writes (Getifaddrs 0 :: l)) with (fqdn_writes l);
      rewrite Hc, (no_write_fqdn_writes l Hl); reflexivity.
Qed.

(** X7. A run of [getfqdn] that returns calls [freeifaddrs] exactly once,
    as its last call, when [getifaddrs] succeeded, and never when it
    failed; either way no interface list is held when it returns. *)
Theorem freeifaddrs_once (os : OS) (info : HostInfo) :
  frees (snd (getfqdn os info)) =
    (if nonzero (fst (os_getifaddrs os)) then 0%nat else 1%nat) /\
  last (snd (getfqdn os info)) Freeifaddrs =
    (if nonzero (fst (os_getifaddrs os)) then SetErrorCall (-2) else Freeifaddrs) /\
  ifaddrs_held (snd (getfqdn os info)) = false.
Proof.
  destruct (getfqdn_cases os) as [H|H].
  - rewrite (getfqdn_enumeration_failed os info H).
    apply nonzero_true in H. rewrite H. unfold ifaddrs_held. simpl.
    now rewrite H.
  - destruct (getfqdn_log_shape os info H) as (l & _ & _ & Hf & Hlog).
    pose proof H as Hz. apply nonzero_false in Hz. rewrite Hz.
    assert (Hfree : exists l', snd (getfqdn os info) = l' ++ [Freeifaddrs] /\
                               frees l' = 0%nat).
    { destruct (first_candidate os (Hostname info) (snd (os_getifaddrs os))) as [c|];
        rewrite Hlog.
      - exists ((Getifaddrs 0 :: l) ++ [SetFqdnCall c; PthreadCancelCall (TimerTid info)]).
        split; [now rewrite <- app_assoc|].
        rewrite frees_app. change (frees (Getifaddrs 0 :: l)) with (frees l).
        now rewrite Hf.
      - exists (Getifaddrs 0 :: l). split; [reflexivity | exact Hf]. }
    destruct Hfree as (l' & -> & Hf').
    rewrite frees_app, Hf', last_last. repeat split.
    apply ifaddrs_held_app_free.
Qed.

Lemma scan_no_list_call (os : OS) (base : string) (ifa : list ifaddrs)
  (info : HostInfo) :
  Forall (fun e => touches_ifaddrs e = false) (snd (scan os base ifa info)).
Proof.
  revert info; induction ifa as [|a next IH]; intros info; [constructor|].
  destruct (scan_cases os base a) as [Hs|[[Hi Hf]|[(Hi & Hf & Hr)|[c Hc]]]].
  - rewrite (scan_skip os base a next info Hs). apply IH.
  - rewrite (scan_failed os base a next info Hi Hf). simpl.
    repeat constructor. apply IH.
  - rewrite (scan_rejected os base a next info Hi Hf Hr). simpl.
    repeat constructor. apply IH.
  - rewrite (scan_accepted os base a next info c Hc). simpl. repeat constructor.
Qed.

Lemma held_after_getifaddrs (l : list call) :
  Forall (fun e => touches_ifaddrs e = false) l ->
  ifaddrs_held (Getifaddrs 0 :: l) = true.
Proof.
  intros H. unfold ifaddrs_held. simpl. generalize true.
  induction H as [|e l He _ IH]; intros held; [reflexivity|].
  simpl. destruct e; try discriminate; apply IH.
Qed.

(** X8. After a successful enumeration, a lookup thread that stops at
    any point between the return of [getifaddrs] and its last call
    ([freeifaddrs]) still holds the interface list: the list is released
    by no call but the last one. *)
Theorem stopped_thread_holds_ifaddrs (os : OS) (info : HostInfo) (k : nat) :
  fst (os_getifaddrs os) = 0 ->
  (1 <= k < List.length (snd (getfqdn os info)))%nat ->
  ifaddrs_held (firstn k (snd (getfqdn os info))) = true.
Proof.
  intros H. rewrite (getfqdn_enumerated os info H). cbn [snd].
  set (l := snd (scan os (Hostname info) (snd (os_getifaddrs os)) info)).
  simpl List.length. rewrite length_app. simpl List.length. intros Hk.
  destruct k as [|k]; [lia|]. rewrite firstn_cons, firstn_app.
  replace (k - List.length l)%nat with 0%nat by lia.
  simpl firstn at 2. rewrite app_nil_r.
  apply held_after_getifaddrs, Forall_firstn_prefix, scan_no_list_call.
Qed.

Lemma stopped_thread_holds_ifaddrs_witness :
  ifaddrs_held
    (firstn 4 (snd (getfqdn os_node01 (main_info os_node01 ["a.out"; "50"])))) = true.
Proof.
  apply (stopped_thread_holds_ifaddrs os_node01
           (main_info os_node01 ["a.out"; "50"]) 4).
  - reflexivity.
  - cbv. lia.
Defined.

(** ** The timer, for every duration *)

Lemma timer_loop_invalid (signals : list Z) (rem : timespec) (elapsed : Z) :
  timespec_valid rem = false ->
  timer_loop rem signals elapsed = elapsed.
Proof.
  intros Hv. destruct signals; simpl; unfold nanosleep; rewrite Hv; simpl; lia.
Qed.

Lemma timer_by_validity (msec : Z) (signals : list Z) :
  timer msec signals =
  if timespec_valid (timer_request msec) then tv_nsec (timer_request msec) else 0.
Proof.
  unfold timer. destruct (timespec_valid (timer_request msec)) eqn:Hv.
  - rewrite timer_loop_valid by exact Hv. unfold ns_of, timer_request.
    cbn [tv_sec tv_nsec]. lia.
  - now rewrite timer_loop_invalid.
Qed.

(** X9. For a duration from 0 to 999 milliseconds the timer stays
    blocked for exactly that duration in total, however often and
    whenever [nanosleep] is interrupted by a signal: each interruption is
    followed by a sleep for the remaining time. *)
Theorem timer_resumes_after_interruptions (msec : Z) (signals : list Z) :
  0 <= msec <= 999 ->
  timer msec signals = 1000000 * msec.
Proof.
  intros H. rewrite timer_by_validity.
  unfold timespec_valid, timer_request. cbn [tv_sec tv_nsec].
  rewrite to_int_small by lia.
  replace (0 <=? 0) with true by reflexivity.
  replace (0 <=? 1000000 * msec) with true by (symmetry; apply Z.leb_le; lia).
  replace (1000000 * msec <=? 999999999) with true
    by (symmetry; apply Z.leb_le; lia).
  reflexivity.
Qed.

Lemma timer_resumes_after_interruptions_witness :
  timer 250 [100000000; 0; 149999999; 7] = 250000000.
Proof.
  apply (timer_resumes_after_interruptions 250). lia.
Defined.

(** X10. Whatever its argument and whatever the signals, the timer never
    stays blocked for a second or more: the time it blocks is between 0
    and 999999999 nanoseconds. *)
Theorem timer_blocks_less_than_a_second (msec : Z) (signals : list Z) :
  0 <= timer msec signals <= 999999999.
Proof.
  rewrite timer_by_validity.
  destruct (timespec_valid (timer_request msec)) eqn:Hv; [|lia].
  unfold timespec_valid in Hv. rewrite !andb_true_iff, !Z.leb_le in Hv. lia.
Qed.

(** X11. For a negative duration, and for a duration of one second or
    more (as long as the product with 1000000 fits an [int]), the timer
    returns without blocking at all. *)
Theorem timer_out_of_range_returns_at_once (msec : Z) (signals : list Z) :
  -2147 <= msec <= -1 \/ 1000 <= msec <= 2147 ->
  timer msec signals = 0.
Proof.
  intros H. rewrite timer_by_validity.
  destruct (timespec_valid (timer_request msec)) eqn:Hv; [|reflexivity].
  unfold timespec_valid, timer_request in Hv. cbn [tv_sec tv_nsec] in Hv.
  rewrite to_int_small in Hv by lia.
  rewrite !andb_true_iff, !Z.leb_le in Hv. lia.
Qed.

Lemma timer_out_of_range_returns_at_once_witness :
  timer (-5) [3] = 0 /\ timer 2000 [] = 0.
Proof.
  split.
  - apply (timer_out_of_range_returns_at_once (-5)). lia.
  - apply (timer_out_of_range_returns_at_once 2000). lia.
Defined.

(** ** What [main] reports *)

Lemma main_reported (os : OS) (argv : list string) :
  fst (main os argv) = 0 ->
  snd (main os argv) =
  thread_calls os argv ++
  report (os_pthread_cancel os (rDnsTid os) =? ESRCH)
         (info_after_rdns os (main_info os argv)).
Proof.
  destruct (main_paths os argv)
    as [(_ & E)|[(_ & _ & E)|[(_ & _ & _ & E)|[(_ & _ & _ & _ & E)
       |[(_ & _ & _ & _ & _ & E)|(_ & _ & _ & _ & _ & E)]]]]];
    rewrite E; cbn [fst snd]; intros H; try discriminate H; reflexivity.
Qed.

Lemma executed_prefix (steps : option nat) (log : list call) :
  exists k, executed steps log = firstn k log.
Proof.
  destruct steps as [k|]; [now exists k|].
  exists (List.length log). simpl. now rewrite firstn_all.
Qed.

Lemma info_after_finished (os : OS) (info : HostInfo) :
  os_rdns_steps os = None -> info_after_rdns os info = resolution os info.
Proof.
  intros H. unfold info_after_rdns. rewrite H. simpl.
  now rewrite getfqdn_replay, getfqdn_result.
Qed.

(** X12. In a run of [main] that returns 0, if the lookup thread was
    retired before it wrote a qualified name (it was cancelled earlier, or
    no address contributed one), the [fqdn=] line carries the host name. *)
Theorem no_write_reports_hostname (os : OS) (argv : list string) :
  fst (main os argv) = 0 ->
  fqdn_writes
    (executed (os_rdns_steps os) (snd (getfqdn os (main_info os argv)))) = 0%nat ->
  reports (snd (main os argv)) (snd (os_gethostname os)).
Proof.
  intros H0 Hw. rewrite (main_reported os argv H0).
  destruct (main_info_names os argv) as [Hfq Hhost].
  assert (Hv : GetFqdn (info_after_rdns os (main_info os argv)) =
               snd (os_gethostname os)).
  { rewrite <- Hhost. unfold info_after_rdns.
    apply GetFqdn_replay_no_write; [exact Hfq | now apply fqdn_writes_none]. }
  rewrite <- Hv. apply report_last.
Qed.

Lemma no_write_reports_hostname_witness :
  reports (snd (main os_slow_dns ["a.out"; "1"])) "node01".
Proof.
  apply (no_write_reports_hostname os_slow_dns ["a.out"; "1"]); reflexivity.
Defined.

(** X13. In a run of [main] that returns 0, if the lookup thread wrote a
    qualified name before it was retired, the [fqdn=] line carries that
    name, the first contributed one, whatever [pthread_cancel] answered:
    when it did not answer [ESRCH] the line follows the diagnostic that
    the lookup took too long. *)
Theorem written_name_is_reported (os : OS) (argv : list string) :
  fst (main os argv) = 0 ->
  (0 < fqdn_writes
         (executed (os_rdns_steps os) (snd (getfqdn os (main_info os argv)))))%nat ->
  exists c,
    first_candidate os (snd (os_gethostname os)) (snd (os_getifaddrs os)) = Some c /\
    reports (snd (main os argv)) c /\
    (os_pthread_cancel os (rDnsTid os) <> ESRCH ->
     snd (main os argv) =
     thread_calls os argv ++ [too_long_line; Cerr ("fqdn=" ++ c)]).
Proof.
  intros H0 Hw. rewrite (main_reported os argv H0).
  destruct (main_info_names os argv) as [_ Hhost].
  unfold info_after_rdns.
  destruct (executed_prefix (os_rdns_steps os) (snd (getfqdn os (main_info os argv))))
    as [k Hk].
  rewrite Hk in *.
  destruct (replay_after_write os (main_info os argv) k Hw) as (c & Hc & Hf & He).
  rewrite Hhost in Hc. exists c. split; [exact Hc|].
  assert (Hv : GetFqdn (replay (main_info os argv)
                          (firstn k (snd (getfqdn os (main_info os argv))))) = c).
  { unfold GetFqdn. now rewrite He, Hf. }
  split.
  - rewrite <- Hv. apply report_last.
  - intros Hne. apply Z.eqb_neq in Hne. rewrite Hne. unfold report.
    now rewrite Hv.
Qed.

Lemma written_name_is_reported_witness :
  snd (main os_late_cancel ["a.out"; "50"]) =
  thread_calls os_late_cancel ["a.out"; "50"] ++
  [too_long_line; Cerr "fqdn=node01.cluster.example.com"].
Proof.
  destruct (written_name_is_reported os_late_cancel ["a.out"; "50"])
    as (c & Hc & _ & H).
  - reflexivity.
  - cbv. lia.
  - injection Hc as <-. apply H. discriminate.
Defined.

(** X14. When the lookup thread has returned, [pthread_cancel] answers
    [ESRCH] and an address contributed a name, a run of [main] that
    returns 0 prints the [fqdn=] line with the first contributed name and
    no diagnostic, even if lookups failed before it or [gethostname]
    failed. *)
Theorem finished_with_name_prints_it (os : OS) (argv : list string) (c : string) :
  fst (main os argv) = 0 ->
  os_pthread_cancel os (rDnsTid os) = ESRCH ->
  os_rdns_steps os = None ->
  fst (os_getifaddrs os) = 0 ->
  first_candidate os (snd (os_gethostname os)) (snd (os_getifaddrs os)) = Some c ->
  snd (main os argv) = thread_calls os argv ++ [Cerr ("fqdn=" ++ c)].
Proof.
  intros H0 Hc Hs He Hf. rewrite (main_reported os argv H0), Hc.
  rewrite (info_after_finished os _ Hs).
  destruct (main_info_names os argv) as [_ Hhost].
  unfold resolution. rewrite Hhost, Hf.
  apply nonzero_false in He. rewrite He. reflexivity.
Qed.

Lemma finished_with_name_prints_it_witness :
  snd (main os_node01 ["a.out"; "50"]) =
  thread_calls os_node01 ["a.out"; "50"] ++ [Cerr "fqdn=node01.cluster.example.com"].
Proof.
  apply (finished_with_name_prints_it os_node01 ["a.out"; "50"]); reflexivity.
Defined.

(** X15. When the lookup thread has returned without a name
    ([pthread_cancel] answers [ESRCH]; the enumeration failed or no
    address contributed a name), a run of [main] that returns 0 prints
    the host name, preceded by the diagnostic that no match was found
    exactly when [gethostname], [getifaddrs] or some reverse lookup
    failed.  When every lookup succeeded and every name was rejected, the
    fallback to the host name is silent. *)
Theorem finished_without_name (os : OS) (argv : list string) :
  fst (main os argv) = 0 ->
  os_pthread_cancel os (rDnsTid os) = ESRCH ->
  os_rdns_steps os = None ->
  fst (os_getifaddrs os) <> 0 \/
  first_candidate os (snd (os_gethostname os)) (snd (os_getifaddrs os)) = None ->
  snd (main os argv) =
  thread_calls os argv ++
  (if nonzero (fst (os_gethostname os)) || nonzero (fst (os_getifaddrs os)) ||
      any_lookup_failed os (snd (os_getifaddrs os))
   then [no_match_line] else []) ++
  [Cerr ("fqdn=" ++ snd (os_gethostname os))].
Proof.
  intros H0 Hc Hs Hn. rewrite (main_reported os argv H0), Hc.
  rewrite (info_after_finished os _ Hs).
  destruct (main_info_names os argv) as [Hfq Hhost].
  assert (He : Error (main_info os argv) =
               if nonzero (fst (os_gethostname os)) then -1 else 0).
  { unfold main_info, HostInfo_new. now destruct (os_gethostname os). }
  destruct (HostInfo_new_names os) as [Hfq' Hhost'].
  unfold report, GetError, GetFqdn, resolution. rewrite Hhost.
  destruct (nonzero (fst (os_getifaddrs os))) eqn:Hi.
  - rewrite orb_true_r. simpl. now rewrite Hhost'.
  - destruct Hn as [Hn|Hn]; [apply nonzero_true in Hn; congruence|].
    rewrite Hn, orb_false_r.
    destruct (any_lookup_failed os (snd (os_getifaddrs os))).
    + rewrite orb_true_r. simpl. now rewrite Hhost'.
    + rewrite orb_false_r, He.
      destruct (nonzero (fst (os_gethostname os))); simpl;
        rewrite ?Hfq', ?Hhost'; reflexivity.
Qed.

Lemma finished_without_name_witness :
  snd (main os_foreign_name ["a.out"; "50"]) =
    thread_calls os_foreign_name ["a.out"; "50"] ++ [Cerr "fqdn=node01"] /\
  snd (main os_no_ifaddrs ["a.out"; "50"]) =
    thread_calls os_no_ifaddrs ["a.out"; "50"] ++ [no_match_line; Cerr "fqdn=node01"].
Proof.
  split.
  - apply (finished_without_name os_foreign_name ["a.out"; "50"]);
      try reflexivity. right. reflexivity.
  - apply (finished_without_name os_no_ifaddrs ["a.out"; "50"]);
      try reflexivity. left. simpl. lia.
Defined.


(** ** The acceptance test, further *)

(** X17. The acceptance test is not anchored: any name that has the host
    name somewhere inside and at least one more character, before or
    after it, is accepted, so also the name of another host that merely
    contains the host name. *)
Theorem accepts_any_extension (b pre post : string) :
  pre <> "" \/ post <> "" ->
  accepts b (pre ++ b ++ post) = true.
Proof.
  intros H. apply accepts_true_iff. split; [now exists pre, post|].
  rewrite !string_length_app.
  destruct pre as [|x pre]; simpl.
  - destruct post as [|y post]; simpl; [destruct H; congruence | lia].
  - lia.
Qed.

Lemma accepts_any_extension_witness :
  accepts "node01" "node010.cluster.example.com" = true /\
  accepts "node01" "old-node01" = true.
Proof.
  split.
  - apply (accepts_any_extension "node01" "" "0.cluster.example.com").
    right. discriminate.
  - apply (accepts_any_extension "node01" "old-" "").
    left. discriminate.
Defined.

(** ** The scan that finds no name *)





(** ** Cancellation inside [getifaddrs] *)

(** C9, at a run the code fails on.  Run with a timeout of 0, the timer
    thread returns at once and [main] cancels the lookup thread while it
    is still inside [getifaddrs], before it has completed any call: the
    process is aborted after the [pthread_cancel] of [main], without an
    exit value of [main] and without the [fqdn=] line, where the
    return path of [main] leads to the report and the value 0. *)
Theorem cancel_inside_getifaddrs_aborts :
  timer 0 [] = 0 /\
  executed (os_rdns_steps os_cancel_in_getifaddrs)
    (snd (getfqdn os_cancel_in_getifaddrs
            (main_info os_cancel_in_getifaddrs ["a.out"; "0"]))) = [] /\
  process os_cancel_in_getifaddrs ["a.out"; "0"] =
    (Terminated,
     [PthreadCreate (timer_routine 0) 0; PthreadCreate getfqdn_routine 0;
      PthreadJoin 101 0; PthreadCancel 102 0]) /\
  fst (main os_cancel_in_getifaddrs ["a.out"; "0"]) = 0.
Proof. repeat split. Qed.
